(** * Data splitting and batching of the gRNAde training entry point

    A shallow embedding of [get_data_splits] (and its local helper
    [index_list_by_indices]) from [main.py], together with the Python
    list primitives it relies on: indexing with negative positions,
    slicing, [zip], [sorted(..., reverse=True)] and tuple unpacking.
    Exceptions are values of an error monad. *)

From Stdlib Require Import String ZArith Bool Lia List Permutation Sorted.
Import ListNotations.

Local Open Scope string_scope.
Local Open Scope Z_scope.
Local Open Scope list_scope.

(** ** Exceptions and the error monad *)

(** A raised Python exception, identified by the name of its class. *)
Inductive exn : Type := Exn (cls : string).

Definition result (A : Type) : Type := (exn + A)%type.

Definition ret {A : Type} (a : A) : result A := inr a.
Definition raise {A : Type} (cls : string) : result A := inl (Exn cls).

Definition bind {A B : Type} (m : result A) (k : A -> result B) : result B :=
  match m with
  | inl e => inl e
  | inr a => k a
  end.

Notation "x <- m ;; k" := (bind m (fun x => k))
  (at level 61, m at next level, right associativity).
Notation "' pat <- m ;; k" := (bind m (fun x => match x with pat => k end))
  (at level 61, pat pattern, m at next level, right associativity).
Notation "m ;;; k" := (bind m (fun _ => k))
  (at level 61, right associativity).

(** [assert cond] *)
Definition py_assert (cond : bool) : result unit :=
  if cond then ret tt else raise "AssertionError".

(** The result is the exception of class [cls]. *)
Definition raises {A : Type} (r : result A) (cls : string) : Prop :=
  r = inl (Exn cls).

(** The call returned normally. *)
Definition returns {A : Type} (r : result A) : Prop :=
  exists a, r = inr a.

(** ** Python sequences *)

Module Py.

Section Sequences.
Context {A : Type}.

(** [lst[index]]: positions [-len(lst) <= index < 0] count from the end,
    everything outside [-len(lst) <= index < len(lst)] is an IndexError. *)
Definition getitem (lst : list A) (index : Z) : result A :=
  let n := Z.of_nat (length lst) in
  let i := if index <? 0 then index + n else index in
  if (i <? 0) || (n <=? i) then raise "IndexError"
  else match nth_error lst (Z.to_nat i) with
       | Some a => ret a
       | None => raise "IndexError"
       end.

(** How a slice bound is clipped against the length [n]: a missing bound
    takes its default, a negative one counts from the end, and the
    outcome is brought into [0 .. n]. *)
Definition clip (n : Z) (default : Z) (bound : option Z) : Z :=
  match bound with
  | None => default
  | Some b =>
      let b' := if b <? 0 then b + n else b in
      if b' <? 0 then 0 else if n <? b' then n else b'
  end.

(** [lst[start:stop]] (step 1). *)
Definition slice (lst : list A) (start stop : option Z) : list A :=
  let n := Z.of_nat (length lst) in
  let lo := clip n 0 start in
  let hi := clip n n stop in
  firstn (Z.to_nat (hi - lo)) (skipn (Z.to_nat lo) lst).

(** [[f(x) for x in xs]] where [f] may raise: elements are evaluated
    left to right and the first exception ends the comprehension. *)
Fixpoint comprehension {B : Type} (f : A -> result B) (xs : list A)
  : result (list B) :=
  match xs with
  | [] => ret []
  | x :: xs' => y <- f x ;; ys <- comprehension f xs' ;; ret (y :: ys)
  end.
End Sequences.

Section Sorting.
Context {A K : Type}.
(** [key] is the [key=] argument, [ltb] is [<] on keys, the only
    comparison [sorted] performs. *)
Variable key : A -> K.
Variable ltb : K -> K -> bool.

(** One step of a stable ascending sort: [x], which precedes every
    element of [l] in the input, goes in front of the first element
    that is not smaller than it. *)
Fixpoint insert (x : A) (l : list A) : list A :=
  match l with
  | [] => [x]
  | y :: l' => if ltb (key y) (key x) then y :: insert x l' else x :: l
  end.

(** [sorted(l, key=key)]: a stable ascending sort. Python's sort and
    this one agree when [<] on the keys is a strict weak order, as on
    integers and on floats without NaN; with a NaN among the keys the
    order Python leaves depends on its merge strategy and is not
    modelled. Statements about the order of an [rmsd] split carry that
    condition on [ltb]. *)
Definition sorted (l : list A) : list A := fold_right insert [] l.

(** [sorted(l, key=key, reverse=True)]: the list is reversed, sorted
    stably in ascending order and reversed again, which is how the
    descending order keeps equal keys in their input order. *)
Definition sorted_reverse (l : list A) : list A := rev (sorted (rev l)).
End Sorting.

(** [a, b = zip( *pairs )], the unzip idiom: [zip] of no argument yields
    nothing, so the unpacking into two names fails on an empty [pairs]. *)
Definition unzip2 {A B : Type} (pairs : list (A * B)) : result (list A * list B) :=
  match pairs with
  | [] => raise "ValueError"
  | _ :: _ => ret (map fst pairs, map snd pairs)
  end.

End Py.

(** ** The corpus and the configuration *)

(** One entry of [processed.pt]; [coords_list] holds one coordinate array
    per conformer of the RNA. *)
Record sample : Type := mk_sample {
  sequence : string;
  coords_list : list (list Z)
}.

(** The options [get_data_splits] reads for slicing. *)
Record Config : Type := mk_config {
  eval_size : Z
}.

(** The three index lists stored in [seq_identity_split.pt]. *)
Definition split_artifact : Type := (list Z * list Z * list Z)%type.

Definition splits : Type := (list sample * list sample * list sample)%type.

Definition index_list_by_indices (lst : list sample) (indices : list Z)
  : result (list sample) :=
  Py.comprehension (fun index => Py.getitem lst index) indices.

Section GetDataSplits.
(** The avg. RMSD values are floats computed in [src/data_utils.py];
    they enter as a key type [K] with its [<] and the function
    [get_avg_rmsds] itself. *)
Context {K : Type}.
Variable ltb : K -> K -> bool.
Variable get_avg_rmsds : list sample -> list K.

(** [data_list] is the loaded corpus and [artifact] the content of
    [seq_identity_split.pt], read only by the [seq_identity] branch.
    The result is [(train_list, val_list, test_list)]. *)
Definition get_data_splits (data_list : list sample) (artifact : split_artifact)
    (config : Config) (split_type : string) : result splits :=
  if String.eqb split_type "seq_identity" then
    let '(train_idx_list, val_idx_list, test_idx_list) := artifact in
    train_list <- index_list_by_indices data_list train_idx_list ;;
    val_list <- index_list_by_indices data_list val_idx_list ;;
    test_list <- index_list_by_indices data_list test_idx_list ;;
    ret (train_list, val_list, test_list)
  else
    data_list <-
      (if String.eqb split_type "rmsd" then
         let rmsd_list := get_avg_rmsds data_list in
         py_assert (Nat.eqb (length data_list) (length rmsd_list)) ;;;
         let zipped := combine data_list rmsd_list in
         let sorted_zipped := Py.sorted_reverse snd ltb zipped in
         '(data_list, rmsd_list) <- Py.unzip2 sorted_zipped ;;
         ret data_list
       else if String.eqb split_type "struct" then
         let count_list := map (fun data => length (coords_list data)) data_list in
         py_assert (Nat.eqb (length count_list) (length count_list)) ;;;
         let zipped := combine data_list count_list in
         let sorted_zipped := Py.sorted_reverse snd Nat.ltb zipped in
         '(data_list, count_list) <- Py.unzip2 sorted_zipped ;;
         ret data_list
       else
         ret data_list) ;;
    let test_list := Py.slice data_list None (Some (eval_size config)) in
    let val_list :=
      Py.slice data_list (Some (eval_size config)) (Some (2 * eval_size config)) in
    let train_list := Py.slice data_list (Some (2 * eval_size config)) None in
    ret (train_list, val_list, test_list).
End GetDataSplits.

(** ** The Batch Sampler *)

Module BatchSampler.

(** Modelled from the spec: the class [BatchSampler] of [src/data.py],
    which [get_dataloader] instantiates with [node_counts], [max_nodes]
    and [shuffle]. The greedy pass of the spec, section 4.2: the next
    index joins the current batch if the batch total stays within
    [max_nodes]; otherwise the current batch is closed and a new one is
    started with that index. A closed batch is emitted when it has
    members, so that a first sample above the budget opens the epoch
    with its own singleton batch. *)
Definition emit (batch : list nat) : list (list nat) :=
  match batch with
  | [] => []
  | _ :: _ => [batch]
  end.

Fixpoint pack (size : nat -> nat) (max_nodes : nat) (order : list nat)
    (batch : list nat) (total : nat) : list (list nat) :=
  match order with
  | [] => emit batch
  | idx :: rest =>
      if Nat.leb (total + size idx) max_nodes
      then pack size max_nodes rest (batch ++ [idx]) (total + size idx)
      else emit batch ++ pack size max_nodes rest [idx] (size idx)
  end.

(** Modelled from the spec: step 1 of the algorithm. With [shuffle] the
    ordering is the permutation [drawn] from the random source for this
    epoch, without it the ascending original order. *)
Definition index_order (n : nat) (shuffle : bool) (drawn : list nat) : list nat :=
  if shuffle then drawn else seq 0 n.

(** Modelled from the spec: one epoch of a sampler built from
    [node_counts], [max_nodes] and [shuffle]. *)
Definition epoch (node_counts : list nat) (max_nodes : nat) (shuffle : bool)
    (drawn : list nat) : list (list nat) :=
  pack (fun i => nth i node_counts 0%nat) max_nodes
       (index_order (length node_counts) shuffle drawn) [] 0%nat.

(** Total size of a batch. *)
Definition batch_size (node_counts : list nat) (batch : list nat) : nat :=
  fold_right (fun i acc => (nth i node_counts 0 + acc)%nat) 0%nat batch.

(** The budget invariant of a batch, with its oversize exception. *)
Definition within_budget (node_counts : list nat) (max_nodes : nat)
    (batch : list nat) : Prop :=
  (batch_size node_counts batch <= max_nodes)%nat
  \/ exists i, batch = [i] /\ (max_nodes < nth i node_counts 0)%nat.

(** The number of batches of an epoch that hold the index [i]. *)
Definition batches_holding (i : nat) (batches : list (list nat)) : nat :=
  length (filter (fun b => existsb (Nat.eqb i) b) batches).

End BatchSampler.

(** ** Vocabulary of the statements *)

Module Order.
Section Order.
Context {A K : Type}.
Variable key : A -> K.
Variable ltb : K -> K -> bool.

(** [x] may stand before [y] in ascending order: [y] is not smaller. *)
Definition asc (x y : A) : Prop := ltb (key y) (key x) = false.

(** [x] may stand before [y] in non-increasing order: [x] is not smaller. *)
Definition desc (x y : A) : Prop := ltb (key x) (key y) = false.

(** The key of [x] ties with [k]: neither is smaller than the other. *)
Definition ties (k : K) (x : A) : bool :=
  negb (ltb k (key x)) && negb (ltb (key x) k).

(** Each element next to its key, as [zip(l, [key(x) for x in l])]. *)
Definition decorate (l : list A) : list (A * K) := combine l (map key l).
End Order.

(** What [<] on keys has to satisfy for [sorted] to sort: a strict weak
    order, as [<] on integers and on floats other than NaN. *)
Record strict_weak {K : Type} (ltb : K -> K -> bool) : Prop := {
  sw_irrefl : forall a, ltb a a = false;
  sw_trans : forall a b c, ltb a b = true -> ltb b c = true -> ltb a c = true;
  sw_negtrans :
    forall a b c, ltb a b = false -> ltb b c = false -> ltb a c = false
}.
End Order.

(** The metric of the [struct] strategy: the number of conformers. *)
Definition structure_count (data : sample) : nat := length (coords_list data).

(** The three slices taken at the end of [get_data_splits]. *)
Definition create_splits (config : Config) (data_list : list sample) : splits :=
  (Py.slice data_list (Some (2 * eval_size config)) None,
   Py.slice data_list (Some (eval_size config)) (Some (2 * eval_size config)),
   Py.slice data_list None (Some (eval_size config))).

Section Ordering.
Context {K : Type}.
Variable ltb : K -> K -> bool.
Variable get_avg_rmsds : list sample -> list K.

(** The samples paired with their avg. RMSD, in the order [sorted] leaves
    them in. *)
Definition ranked_by_rmsd (data_list : list sample) : list (sample * K) :=
  Py.sorted_reverse snd ltb (combine data_list (get_avg_rmsds data_list)).

(** The sequence that gets sliced, for each strategy but
    [seq_identity]. *)
Definition sample_order (split_type : string) (data_list : list sample)
  : list sample :=
  if String.eqb split_type "rmsd" then map fst (ranked_by_rmsd data_list)
  else if String.eqb split_type "struct"
       then Py.sorted_reverse structure_count Nat.ltb data_list
       else data_list.

(** When the ordering step of a strategy goes through: [rmsd] needs one
    metric per sample, and the unzip of [rmsd] and [struct] needs a
    sample. *)
Definition orderable (split_type : string) (data_list : list sample) : Prop :=
  (split_type = "rmsd" ->
     length (get_avg_rmsds data_list) = length data_list)
  /\ (split_type = "rmsd" \/ split_type = "struct" -> data_list <> []).
End Ordering.

(** An index that [lst[i]] accepts. *)
Definition in_range {A : Type} (lst : list A) (i : Z) : Prop :=
  - Z.of_nat (length lst) <= i < Z.of_nat (length lst).

(** A small corpus for concrete runs: [demo_a] has one conformer,
    [demo_b] and [demo_c] have three each. *)
Module Demo.
Definition demo_a : sample := mk_sample "GGCAUC" [[0; 0; 0]].
Definition demo_b : sample := mk_sample "ACGU" [[1; 0; 0]; [1; 1; 0]; [1; 1; 1]].
Definition demo_c : sample := mk_sample "UUAGC" [[2; 0; 0]; [2; 2; 0]; [2; 2; 2]].
Definition corpus : list sample := [demo_a; demo_b; demo_c].

(** Avg. RMSD values for [corpus], as integers, and a metric function
    that keeps them in step with the samples it is given. *)
Definition rmsd_of (data : sample) : Z :=
  Z.of_nat (length (coords_list data)) * 10.
Definition avg_rmsds (data_list : list sample) : list Z := map rmsd_of data_list.

(** A metric function that loses every value. *)
Definition no_rmsds (data_list : list sample) : list Z := [].
End Demo.

(** A corpus whose structure counts all differ, and a reordering of it. *)
Module DemoRun.
Definition demo_d : sample := mk_sample "CCGA" [[3; 0; 0]; [3; 3; 0]].
Definition distinct_corpus : list sample := [Demo.demo_a; Demo.demo_b; demo_d].
Definition distinct_corpus' : list sample := [demo_d; Demo.demo_a; Demo.demo_b].
End DemoRun.

(** ** Facts about the Python sequence primitives *)

Module PyFacts.

Lemma firstn_clamp {A : Type} (k : nat) (l : list A) :
  firstn (Nat.min k (length l)) l = firstn k l.
Proof.
  destruct (Nat.le_ge_cases k (length l)) as [Hle | Hge].
  - now rewrite Nat.min_l.
  - rewrite Nat.min_r by assumption.
    now rewrite firstn_all, firstn_all2.
Qed.

(** [lst[:e]] for a non-negative [e]. *)
Lemma slice_prefix {A : Type} (l : list A) (e : Z) :
  0 <= e -> Py.slice l None (Some e) = firstn (Z.to_nat e) l.
Proof.
  intros He. unfold Py.slice, Py.clip.
  destruct (Z.ltb_spec e 0) as [Hneg | _]; [lia |].
  destruct (Z.ltb_spec e 0) as [Hneg | _]; [lia |].
  simpl skipn.
  destruct (Z.ltb_spec (Z.of_nat (length l)) e) as [Hbig | Hsmall].
  - rewrite Z.sub_0_r, Nat2Z.id.
    rewrite firstn_all, firstn_all2; [reflexivity | lia].
  - now rewrite Z.sub_0_r.
Qed.

(** [lst[e:]] for a non-negative [e]. *)
Lemma slice_suffix {A : Type} (l : list A) (e : Z) :
  0 <= e -> Py.slice l (Some e) None = skipn (Z.to_nat e) l.
Proof.
  intros He. unfold Py.slice, Py.clip.
  destruct (Z.ltb_spec e 0) as [Hneg | _]; [lia |].
  destruct (Z.ltb_spec e 0) as [Hneg | _]; [lia |].
  destruct (Z.ltb_spec (Z.of_nat (length l)) e) as [Hbig | Hsmall].
  - rewrite Nat2Z.id, skipn_all, skipn_all2; [now destruct (Z.to_nat _) | lia].
  - apply firstn_all2. rewrite length_skipn. lia.
Qed.

(** [lst[a:b]] for [0 <= a <= b]. *)
Lemma slice_middle {A : Type} (l : list A) (a b : Z) :
  0 <= a <= b ->
  Py.slice l (Some a) (Some b) = firstn (Z.to_nat (b - a)) (skipn (Z.to_nat a) l).
Proof.
  intros Hab. unfold Py.slice, Py.clip.
  destruct (Z.ltb_spec a 0) as [Hneg | _]; [lia |].
  destruct (Z.ltb_spec a 0) as [Hneg | _]; [lia |].
  destruct (Z.ltb_spec b 0) as [Hneg | _]; [lia |].
  destruct (Z.ltb_spec b 0) as [Hneg | _]; [lia |].
  destruct (Z.ltb_spec (Z.of_nat (length l)) a) as [Ha | Ha].
  - rewrite Nat2Z.id, skipn_all.
    rewrite skipn_all2 by lia. now rewrite !firstn_nil.
  - destruct (Z.ltb_spec (Z.of_nat (length l)) b) as [Hb | Hb].
    + rewrite !firstn_all2; [reflexivity | | ]; rewrite length_skipn; lia.
    + reflexivity.
Qed.

(** The three slices of [get_data_splits] cut the list into consecutive
    pieces. *)
Lemma slices_concat {A : Type} (l : list A) (e : Z) :
  0 <= e ->
  Py.slice l None (Some e) ++ Py.slice l (Some e) (Some (2 * e))
    ++ Py.slice l (Some (2 * e)) None = l.
Proof.
  intros He.
  rewrite slice_prefix, slice_middle, slice_suffix by lia.
  replace (2 * e - e) with e by lia.
  replace (Z.to_nat (2 * e)) with (Z.to_nat e + Z.to_nat e)%nat by lia.
  rewrite <- skipn_skipn, firstn_skipn. apply firstn_skipn.
Qed.

(** Indexing inside [0 <= i < len(lst)]. *)
Lemma getitem_nonneg {A : Type} (l : list A) (i : Z) (d : A) :
  0 <= i < Z.of_nat (length l) ->
  Py.getitem l i = ret (nth (Z.to_nat i) l d).
Proof.
  intros Hi. unfold Py.getitem.
  destruct (Z.ltb_spec i 0) as [Hneg | _]; [lia |].
  destruct (Z.ltb_spec i 0) as [Hneg | _]; [lia |].
  destruct (Z.leb_spec (Z.of_nat (length l)) i) as [Hbig | _]; [lia |].
  simpl. destruct (nth_error l (Z.to_nat i)) eqn:E.
  - now rewrite (nth_error_nth _ _ d E).
  - apply nth_error_None in E. lia.
Qed.

(** Indexing inside [-len(lst) <= i < 0]. *)
Lemma getitem_negative {A : Type} (l : list A) (i : Z) (d : A) :
  - Z.of_nat (length l) <= i < 0 ->
  Py.getitem l i = ret (nth (Z.to_nat (Z.of_nat (length l) + i)) l d).
Proof.
  intros Hi. unfold Py.getitem.
  destruct (Z.ltb_spec i 0) as [_ | Hpos]; [| lia].
  destruct (Z.ltb_spec (i + Z.of_nat (length l)) 0) as [Hneg | _]; [lia |].
  destruct (Z.leb_spec (Z.of_nat (length l)) (i + Z.of_nat (length l)))
    as [Hbig | _]; [lia |].
  simpl. rewrite Z.add_comm.
  destruct (nth_error l (Z.to_nat (Z.of_nat (length l) + i))) eqn:E.
  - now rewrite (nth_error_nth _ _ d E).
  - apply nth_error_None in E. lia.
Qed.

(** Indexing outside [-len(lst) <= i < len(lst)]. *)
Lemma getitem_out_of_range {A : Type} (l : list A) (i : Z) :
  i < - Z.of_nat (length l) \/ Z.of_nat (length l) <= i ->
  Py.getitem l i = raise "IndexError".
Proof.
  intros Hi. unfold Py.getitem.
  destruct (Z.ltb_spec i 0) as [Hneg | Hpos].
  - destruct (Z.ltb_spec (i + Z.of_nat (length l)) 0) as [_ | Hge]; [reflexivity | lia].
  - destruct (Z.ltb_spec i 0) as [Hneg | _]; [lia |].
    destruct (Z.leb_spec (Z.of_nat (length l)) i) as [_ | Hlt]; [reflexivity | lia].
Qed.

End PyFacts.

(** ** Facts about [sorted] *)

Module SortFacts.

Section Order.
Context {A K : Type}.
Variable key : A -> K.
Variable ltb : K -> K -> bool.

Local Abbreviation asc := (Order.asc key ltb).
Local Abbreviation desc := (Order.desc key ltb).
Local Abbreviation ties := (Order.ties key ltb).

Lemma insert_perm (x : A) (l : list A) :
  Permutation (Py.insert key ltb x l) (x :: l).
Proof.
  induction l as [| y l IH]; simpl; [reflexivity |].
  destruct (ltb (key y) (key x)); [| reflexivity].
  rewrite IH. apply perm_swap.
Qed.

Lemma sorted_perm (l : list A) : Permutation (Py.sorted key ltb l) l.
Proof.
  induction l as [| x l IH]; simpl; [reflexivity |].
  rewrite insert_perm. now constructor.
Qed.

Lemma sorted_reverse_perm (l : list A) :
  Permutation (Py.sorted_reverse key ltb l) l.
Proof.
  unfold Py.sorted_reverse.
  rewrite <- Permutation_rev, sorted_perm. symmetry. apply Permutation_rev.
Qed.

Lemma sorted_reverse_nil_iff (l : list A) :
  Py.sorted_reverse key ltb l = [] <-> l = [].
Proof.
  split; intros H.
  - apply Permutation_nil. rewrite <- H. apply sorted_reverse_perm.
  - now subst.
Qed.

(** What [<] on keys has to satisfy: a strict weak order, as [<] on
    integers and on floats other than NaN. *)
Hypothesis ltb_irrefl : forall a, ltb a a = false.
Hypothesis ltb_trans :
  forall a b c, ltb a b = true -> ltb b c = true -> ltb a c = true.
Hypothesis ltb_negtrans :
  forall a b c, ltb a b = false -> ltb b c = false -> ltb a c = false.

Lemma ltb_asym (a b : K) : ltb a b = true -> ltb b a = false.
Proof.
  intros Hab. destruct (ltb b a) eqn:Hba; [| reflexivity].
  rewrite <- (ltb_irrefl a). symmetry. now apply ltb_trans with b.
Qed.

Lemma insert_asc (x : A) (l : list A) :
  StronglySorted asc l -> StronglySorted asc (Py.insert key ltb x l).
Proof.
  induction l as [| y l IH]; intros Hs; simpl.
  - repeat constructor.
  - inversion Hs as [| ? ? Hl Hy]; subst.
    destruct (ltb (key y) (key x)) eqn:Hyx.
    + constructor; [now apply IH |].
      eapply Permutation_Forall.
      * symmetry. apply insert_perm.
      * constructor; [| assumption]. now apply ltb_asym.
    + constructor; [assumption |].
      constructor; [exact Hyx |].
      apply Forall_impl with (P := asc y); [| assumption].
      intros z Hz. unfold Order.asc in *. now apply ltb_negtrans with (key y).
Qed.

Lemma sorted_asc (l : list A) : StronglySorted asc (Py.sorted key ltb l).
Proof.
  induction l as [| x l IH]; simpl; [constructor | now apply insert_asc].
Qed.

Lemma strongly_sorted_snoc (R : A -> A -> Prop) (l : list A) (x : A) :
  StronglySorted R l -> Forall (fun y => R y x) l ->
  StronglySorted R (l ++ [x]).
Proof.
  induction l as [| y l IH]; intros Hs Hx; simpl.
  - repeat constructor.
  - inversion Hs; subst. inversion Hx; subst.
    constructor; [now apply IH |].
    apply Forall_app. split; [assumption | now constructor].
Qed.

Lemma strongly_sorted_rev (R : A -> A -> Prop) (l : list A) :
  StronglySorted R l -> StronglySorted (fun x y => R y x) (rev l).
Proof.
  induction 1 as [| x l Hs IH Hx]; simpl; [constructor |].
  apply strongly_sorted_snoc; [assumption |].
  apply Forall_rev. exact Hx.
Qed.

(** The outcome of [sorted(..., reverse=True)] is in non-increasing
    order of the key. *)
Lemma sorted_reverse_desc (l : list A) :
  StronglySorted desc (Py.sorted_reverse key ltb l).
Proof.
  unfold Py.sorted_reverse.
  apply (strongly_sorted_rev asc). apply sorted_asc.
Qed.

Lemma ties_not_ltb (k : K) (x y : A) :
  ties k x = true -> ties k y = true -> ltb (key y) (key x) = false.
Proof.
  unfold Order.ties. rewrite !andb_true_iff, !negb_true_iff.
  intros [Hkx _] [_ Hyk]. now apply ltb_negtrans with k.
Qed.

Lemma insert_stable (k : K) (x : A) (l : list A) :
  filter (ties k) (Py.insert key ltb x l) = filter (ties k) (x :: l).
Proof.
  induction l as [| y l IH]; [reflexivity |].
  simpl Py.insert. destruct (ltb (key y) (key x)) eqn:Hyx; [| reflexivity].
  simpl filter in *. rewrite IH.
  destruct (ties k x) eqn:Hx, (ties k y) eqn:Hy; try reflexivity.
  rewrite (ties_not_ltb k x y Hx Hy) in Hyx. discriminate.
Qed.

Lemma sorted_stable (k : K) (l : list A) :
  filter (ties k) (Py.sorted key ltb l) = filter (ties k) l.
Proof.
  induction l as [| x l IH]; [reflexivity |].
  simpl Py.sorted. rewrite insert_stable. simpl. now rewrite IH.
Qed.

Lemma filter_rev_comm (f : A -> bool) (l : list A) :
  filter f (rev l) = rev (filter f l).
Proof.
  induction l as [| x l IH]; [reflexivity |].
  simpl. rewrite filter_app, IH. simpl.
  destruct (f x); [reflexivity | now rewrite app_nil_r].
Qed.

(** [sorted(..., reverse=True)] is stable: the elements whose keys tie
    with [k] come out in the order they went in. *)
Lemma sorted_reverse_stable (k : K) (l : list A) :
  filter (ties k) (Py.sorted_reverse key ltb l) = filter (ties k) l.
Proof.
  unfold Py.sorted_reverse.
  now rewrite filter_rev_comm, sorted_stable, filter_rev_comm, rev_involutive.
Qed.
End Order.

(** Sorting [(x, f x)] pairs on the second component sorts the first
    components on [f]. *)
Section Decorated.
Context {A K : Type}.
Variable f : A -> K.
Variable ltb : K -> K -> bool.

Local Abbreviation decorate := (Order.decorate f).

Lemma decorate_map (l : list A) : decorate l = map (fun x => (x, f x)) l.
Proof.
  unfold Order.decorate. induction l as [| x l IH]; simpl; congruence.
Qed.

Lemma insert_decorated (x : A) (l : list A) :
  Py.insert snd ltb (x, f x) (map (fun x => (x, f x)) l)
  = map (fun x => (x, f x)) (Py.insert f ltb x l).
Proof.
  induction l as [| y l IH]; [reflexivity |].
  simpl. destruct (ltb (f y) (f x)); simpl; congruence.
Qed.

Lemma sorted_decorated (l : list A) :
  Py.sorted snd ltb (map (fun x => (x, f x)) l)
  = map (fun x => (x, f x)) (Py.sorted f ltb l).
Proof.
  induction l as [| x l IH]; [reflexivity |].
  simpl. now rewrite IH, insert_decorated.
Qed.

Lemma sorted_reverse_decorated (l : list A) :
  map fst (Py.sorted_reverse snd ltb (decorate l)) = Py.sorted_reverse f ltb l.
Proof.
  unfold Py.sorted_reverse.
  rewrite decorate_map, <- map_rev, sorted_decorated, <- map_rev, map_map.
  simpl. apply map_id.
Qed.
End Decorated.

(** [<] on [nat] and on [Z] are strict weak orders. *)
Lemma nat_ltb_irrefl (a : nat) : Nat.ltb a a = false.
Proof. apply Nat.ltb_irrefl. Qed.

Lemma nat_ltb_trans (a b c : nat) :
  Nat.ltb a b = true -> Nat.ltb b c = true -> Nat.ltb a c = true.
Proof. rewrite !Nat.ltb_lt. lia. Qed.

Lemma nat_ltb_negtrans (a b c : nat) :
  Nat.ltb a b = false -> Nat.ltb b c = false -> Nat.ltb a c = false.
Proof. rewrite !Nat.ltb_ge. lia. Qed.

Lemma Z_ltb_trans (a b c : Z) :
  Z.ltb a b = true -> Z.ltb b c = true -> Z.ltb a c = true.
Proof. rewrite !Z.ltb_lt. lia. Qed.

Lemma Z_ltb_negtrans (a b c : Z) :
  Z.ltb a b = false -> Z.ltb b c = false -> Z.ltb a c = false.
Proof. rewrite !Z.ltb_ge. lia. Qed.

End SortFacts.

(** ** Facts about [get_data_splits] *)

Module SplitFacts.

Lemma unzip2_nonempty {A B : Type} (pairs : list (A * B)) :
  pairs <> [] -> Py.unzip2 pairs = ret (map fst pairs, map snd pairs).
Proof. destruct pairs; [congruence | reflexivity]. Qed.

Lemma combine_nil_iff {A B : Type} (l : list A) (m : list B) :
  length m = length l -> (combine l m = [] <-> l = []).
Proof.
  destruct l, m; simpl; intros Hlen; split; intros H;
    try reflexivity; try discriminate.
Qed.

Section Strategies.
Context {K : Type}.
Variable ltb : K -> K -> bool.
Variable get_avg_rmsds : list sample -> list K.

Lemma split_random (data_list : list sample) (artifact : split_artifact)
    (config : Config) (split_type : string) :
  split_type <> "seq_identity" -> split_type <> "rmsd" ->
  split_type <> "struct" ->
  get_data_splits ltb get_avg_rmsds data_list artifact config split_type
  = ret (create_splits config data_list).
Proof.
  intros H1 H2 H3. unfold get_data_splits.
  apply String.eqb_neq in H1, H2, H3. now rewrite H1, H2, H3.
Qed.

Lemma split_rmsd (data_list : list sample) (artifact : split_artifact)
    (config : Config) :
  length (get_avg_rmsds data_list) = length data_list ->
  data_list <> [] ->
  get_data_splits ltb get_avg_rmsds data_list artifact config "rmsd"
  = ret (create_splits config (map fst (ranked_by_rmsd ltb get_avg_rmsds data_list))).
Proof.
  intros Hlen Hne. unfold get_data_splits. simpl String.eqb. cbv iota.
  rewrite Hlen, Nat.eqb_refl. simpl bind at 2.
  fold (ranked_by_rmsd ltb get_avg_rmsds data_list).
  rewrite unzip2_nonempty; [reflexivity |].
  unfold ranked_by_rmsd. rewrite SortFacts.sorted_reverse_nil_iff.
  now rewrite combine_nil_iff.
Qed.

Lemma split_rmsd_mismatch (data_list : list sample) (artifact : split_artifact)
    (config : Config) :
  length (get_avg_rmsds data_list) <> length data_list ->
  get_data_splits ltb get_avg_rmsds data_list artifact config "rmsd"
  = raise "AssertionError".
Proof.
  intros Hlen. unfold get_data_splits. simpl String.eqb. cbv iota.
  destruct (Nat.eqb_spec (length data_list) (length (get_avg_rmsds data_list)))
    as [E | _]; [congruence | reflexivity].
Qed.

Lemma split_struct (data_list : list sample) (artifact : split_artifact)
    (config : Config) :
  data_list <> [] ->
  get_data_splits ltb get_avg_rmsds data_list artifact config "struct"
  = ret (create_splits config
           (Py.sorted_reverse structure_count Nat.ltb data_list)).
Proof.
  intros Hne. unfold get_data_splits. simpl String.eqb. cbv iota.
  rewrite Nat.eqb_refl. simpl bind at 2.
  change (combine data_list (map (fun data => length (coords_list data)) data_list))
    with (Order.decorate structure_count data_list).
  rewrite unzip2_nonempty.
  - simpl bind. now rewrite SortFacts.sorted_reverse_decorated.
  - rewrite SortFacts.sorted_reverse_nil_iff. unfold Order.decorate.
    rewrite combine_nil_iff; [assumption | apply length_map].
Qed.

(** Every strategy but [seq_identity] slices [sample_order]. *)
Lemma split_sliced (data_list : list sample) (artifact : split_artifact)
    (config : Config) (split_type : string) :
  split_type <> "seq_identity" -> orderable get_avg_rmsds split_type data_list ->
  get_data_splits ltb get_avg_rmsds data_list artifact config split_type
  = ret (create_splits config (sample_order ltb get_avg_rmsds split_type data_list)).
Proof.
  intros Hseq [Hlen Hne]. unfold sample_order.
  destruct (String.eqb_spec split_type "rmsd") as [-> | Hr].
  - apply split_rmsd; auto.
  - destruct (String.eqb_spec split_type "struct") as [-> | Hs].
    + apply split_struct; auto.
    + now apply split_random.
Qed.

Lemma sample_order_perm (split_type : string) (data_list : list sample) :
  (split_type = "rmsd" ->
     length (get_avg_rmsds data_list) = length data_list) ->
  Permutation (sample_order ltb get_avg_rmsds split_type data_list) data_list.
Proof.
  intros Hlen. unfold sample_order.
  destruct (String.eqb_spec split_type "rmsd") as [-> | Hr].
  - unfold ranked_by_rmsd. rewrite SortFacts.sorted_reverse_perm.
    specialize (Hlen eq_refl). clear - Hlen.
    revert Hlen. generalize (get_avg_rmsds data_list) as m.
    induction data_list as [| x l IH]; intros [| k m] Hlen;
      simpl in *; try discriminate; auto.
  - destruct (String.eqb_spec split_type "struct") as [-> | Hs].
    + apply SortFacts.sorted_reverse_perm.
    + reflexivity.
Qed.
End Strategies.

(** [index_list_by_indices] without an index out of range: every listed
    index is looked up, in the order listed. *)
Lemma index_list_in_range (lst : list sample) (indices : list Z) :
  Forall (fun i => - Z.of_nat (length lst) <= i < Z.of_nat (length lst)) indices ->
  exists picked,
    index_list_by_indices lst indices = ret picked
    /\ Forall2 (fun i s => Py.getitem lst i = ret s) indices picked.
Proof.
  induction 1 as [| i indices Hi _ [picked [Hp Hall]]].
  - exists []. split; [reflexivity | constructor].
  - assert (exists s, Py.getitem lst i = ret s) as [s Hs].
    { destruct lst as [| d lst'] eqn:E; [simpl in Hi; lia |]. rewrite <- E in *.
      destruct (Z.ltb_spec i 0).
      - eexists. apply (PyFacts.getitem_negative lst i d). lia.
      - eexists. apply (PyFacts.getitem_nonneg lst i d). lia. }
    exists (s :: picked). split.
    + unfold index_list_by_indices in *. simpl. rewrite Hs. simpl.
      now rewrite Hp.
    + now constructor.
Qed.

(** [index_list_by_indices] with an index out of range. *)
Lemma index_list_out_of_range (lst : list sample) (indices : list Z) :
  Exists (fun i => i < - Z.of_nat (length lst) \/ Z.of_nat (length lst) <= i)
         indices ->
  index_list_by_indices lst indices = raise "IndexError".
Proof.
  unfold index_list_by_indices.
  induction 1 as [i indices Hi | i indices _ IH]; simpl.
  - now rewrite PyFacts.getitem_out_of_range.
  - destruct (Py.getitem lst i) as [[cls] | s] eqn:E.
    + simpl. unfold Py.getitem in E.
      destruct ((_ <? 0) || _); [now injection E as <- |].
      destruct (nth_error _ _); [discriminate | now injection E as <-].
    + simpl. now rewrite IH.
Qed.

(** Whatever the indices, [index_list_by_indices] returns or raises an
    IndexError. *)
Lemma index_list_cases (lst : list sample) (indices : list Z) :
  returns (index_list_by_indices lst indices)
  \/ index_list_by_indices lst indices = raise "IndexError".
Proof.
  destruct (Forall_Exists_dec
              (fun i => - Z.of_nat (length lst) <= i < Z.of_nat (length lst))
              (fun i => match Z_le_dec (- Z.of_nat (length lst)) i,
                              Z_lt_dec i (Z.of_nat (length lst)) with
                        | left a, left b => left (conj a b)
                        | right a, _ => right (fun H => a (proj1 H))
                        | _, right b => right (fun H => b (proj2 H))
                        end) indices) as [Hall | Hex].
  - left. destruct (index_list_in_range lst indices Hall) as [p [Hp _]].
    now exists p.
  - right. apply index_list_out_of_range.
    apply Exists_impl with (2 := Hex). intros i Hi. lia.
Qed.

End SplitFacts.


(** ** Facts about the Batch Sampler *)

Module BatchFacts.
Import BatchSampler.
Local Open Scope nat_scope.

Lemma concat_emit (batch : list nat) : concat (emit batch) = batch.
Proof. destruct batch; simpl; [reflexivity | now rewrite app_nil_r]. Qed.

(** Packing neither drops, repeats nor reorders an index. *)
Lemma pack_concat (size : nat -> nat) (max_nodes : nat) (order : list nat) :
  forall batch total,
    concat (pack size max_nodes order batch total) = batch ++ order.
Proof.
  induction order as [| idx rest IH]; intros batch total; simpl.
  - now rewrite concat_emit, app_nil_r.
  - destruct (Nat.leb (total + size idx) max_nodes).
    + now rewrite IH, <- app_assoc.
    + now rewrite concat_app, concat_emit, IH.
Qed.

Lemma batch_size_app (node_counts : list nat) (b1 b2 : list nat) :
  batch_size node_counts (b1 ++ b2)
  = batch_size node_counts b1 + batch_size node_counts b2.
Proof.
  induction b1 as [| i b1 IH]; simpl; [reflexivity | rewrite IH; lia].
Qed.

Lemma emit_within_budget (node_counts : list nat) (max_nodes : nat)
    (batch : list nat) :
  within_budget node_counts max_nodes batch ->
  Forall (within_budget node_counts max_nodes) (emit batch).
Proof. destruct batch; simpl; auto. Qed.

(** The running batch is within the budget at every step, so every batch
    that gets emitted is. *)
Lemma pack_within_budget (node_counts : list nat) (max_nodes : nat)
    (order : list nat) :
  forall batch total,
    total = batch_size node_counts batch ->
    within_budget node_counts max_nodes batch ->
    Forall (within_budget node_counts max_nodes)
           (pack (fun i => nth i node_counts 0) max_nodes order batch total).
Proof.
  induction order as [| idx rest IH]; intros batch total Htot Hok; simpl.
  - now apply emit_within_budget.
  - destruct (Nat.leb_spec (total + nth idx node_counts 0) max_nodes) as [Hfit | Hover].
    + apply IH.
      * rewrite batch_size_app. simpl. lia.
      * left. rewrite batch_size_app. simpl. lia.
    + apply Forall_app. split; [now apply emit_within_budget |].
      apply IH; [simpl; lia |].
      destruct (Nat.le_gt_cases (nth idx node_counts 0) max_nodes) as [Hle | Hgt].
      * left. simpl. lia.
      * right. now exists idx.
Qed.

Lemma holding_none (i : nat) (batches : list (list nat)) :
  ~ In i (concat batches) -> batches_holding i batches = 0.
Proof.
  unfold batches_holding.
  induction batches as [| b batches IH]; intros Hnot; [reflexivity |].
  simpl in *. rewrite in_app_iff in Hnot.
  destruct (existsb (Nat.eqb i) b) eqn:E.
  - apply existsb_exists in E as [j [Hj Hij]].
    apply Nat.eqb_eq in Hij. subst j. tauto.
  - apply IH. tauto.
Qed.

(** An index of a duplicate-free epoch sits in exactly one batch. *)
Lemma holding_unique (i : nat) (batches : list (list nat)) :
  NoDup (concat batches) -> In i (concat batches) ->
  batches_holding i batches = 1.
Proof.
  induction batches as [| b batches IH]; intros Hnd Hin; [contradiction |].
  simpl in Hnd, Hin.
  change (batches_holding i (b :: batches))
    with (length (if existsb (Nat.eqb i) b
                  then b :: filter (fun b => existsb (Nat.eqb i) b) batches
                  else filter (fun b => existsb (Nat.eqb i) b) batches)).
  destruct (existsb (Nat.eqb i) b) eqn:E.
  - apply existsb_exists in E as [j [Hj Hij]].
    apply Nat.eqb_eq in Hij. subst j.
    simpl. f_equal. apply holding_none.
    intros Hc. apply NoDup_app_remove_l in Hnd as Hnd'.
    clear - Hnd Hj Hc.
    induction b as [| x b IHb]; [contradiction |].
    simpl in Hnd. inversion Hnd as [| ? ? Hx Hrest]; subst.
    destruct Hj as [-> | Hj].
    + apply Hx. apply in_or_app. now right.
    + now apply IHb.
  - apply IH.
    + now apply NoDup_app_remove_l in Hnd.
    + apply in_app_or in Hin as [Hb | Hrest]; [| assumption].
      assert (existsb (Nat.eqb i) b = true) as Habs.
      { apply existsb_exists. exists i. split; [assumption | apply Nat.eqb_refl]. }
      congruence.
Qed.

Lemma epoch_concat (node_counts : list nat) (max_nodes : nat) (shuffle : bool)
    (drawn : list nat) :
  concat (epoch node_counts max_nodes shuffle drawn)
  = index_order (length node_counts) shuffle drawn.
Proof. unfold epoch. now rewrite pack_concat. Qed.

(** The scenarios of the spec, section 8. *)
Example epoch_scenario_fit :
  epoch [60; 40; 30; 20; 10] 100 false [] = [[0; 1]; [2; 3; 4]].
Proof. reflexivity. Qed.

Example epoch_scenario_oversize :
  epoch [5; 5; 5] 3 false [] = [[0]; [1]; [2]].
Proof. reflexivity. Qed.

End BatchFacts.


(** ** The slicing rule *)

Lemma Z_ltb_strict_weak : Order.strict_weak Z.ltb.
Proof.
  constructor.
  - apply Z.ltb_irrefl.
  - apply SortFacts.Z_ltb_trans.
  - apply SortFacts.Z_ltb_negtrans.
Qed.

(** C1: for every strategy other than [seq_identity] the first
    [eval_size] items of the (possibly sorted) sample sequence become
    test, the next [eval_size] val and the remaining ones train; ten
    samples with [eval_size = 3] under the random strategy give test =
    indices 0-2, val = indices 3-5 and train = indices 6-9. For [rmsd]
    the sorted sequence is the one of a [<] that is a strict weak order
    on the avg. RMSD values. *)
Theorem slicing_rule :
  (forall (K : Type) (ltb : K -> K -> bool)
          (get_avg_rmsds : list sample -> list K)
          (data_list : list sample) (artifact : split_artifact)
          (config : Config) (split_type : string),
      split_type <> "seq_identity" ->
      (split_type = "rmsd" -> Order.strict_weak ltb) ->
      0 <= eval_size config ->
      orderable get_avg_rmsds split_type data_list ->
      let ordered := sample_order ltb get_avg_rmsds split_type data_list in
      let e := Z.to_nat (eval_size config) in
      get_data_splits ltb get_avg_rmsds data_list artifact config split_type
      = ret (skipn (e + e) ordered, firstn e (skipn e ordered), firstn e ordered))
  /\ (forall (K : Type) (ltb : K -> K -> bool)
             (get_avg_rmsds : list sample -> list K)
             (s0 s1 s2 s3 s4 s5 s6 s7 s8 s9 : sample) (artifact : split_artifact),
         get_data_splits ltb get_avg_rmsds
           [s0; s1; s2; s3; s4; s5; s6; s7; s8; s9] artifact (mk_config 3) "random"
         = ret ([s6; s7; s8; s9], [s3; s4; s5], [s0; s1; s2])).
Proof.
  split.
  - intros K ltb get_avg_rmsds data_list artifact config split_type
      Hseq _ He Hord ordered e.
    rewrite SplitFacts.split_sliced by assumption.
    unfold create_splits. fold ordered.
    rewrite PyFacts.slice_prefix, PyFacts.slice_middle, PyFacts.slice_suffix by lia.
    replace (2 * eval_size config - eval_size config) with (eval_size config) by lia.
    replace (Z.to_nat (2 * eval_size config)) with (e + e)%nat by (unfold e; lia).
    reflexivity.
  - intros. reflexivity.
Qed.

Lemma slicing_rule_witness :
  (("struct" <> "seq_identity")
   /\ 0 <= eval_size (mk_config 1)
   /\ orderable Demo.avg_rmsds "struct" Demo.corpus
   /\ get_data_splits Z.ltb Demo.avg_rmsds Demo.corpus ([], [], [])
        (mk_config 1) "struct"
      = ret ([Demo.demo_a], [Demo.demo_c], [Demo.demo_b]))
  /\ (("rmsd" <> "seq_identity")
      /\ Order.strict_weak Z.ltb
      /\ 0 <= eval_size (mk_config 1)
      /\ orderable Demo.avg_rmsds "rmsd" Demo.corpus
      /\ get_data_splits Z.ltb Demo.avg_rmsds Demo.corpus ([], [], [])
           (mk_config 1) "rmsd"
         = ret ([Demo.demo_a], [Demo.demo_c], [Demo.demo_b])).
Proof.
  assert (H1 : "struct" <> "seq_identity") by discriminate.
  assert (H1' : "rmsd" <> "seq_identity") by discriminate.
  assert (H2 : 0 <= eval_size (mk_config 1)) by (simpl; lia).
  assert (H3 : orderable Demo.avg_rmsds "struct" Demo.corpus)
    by (split; intros; discriminate).
  assert (H3' : orderable Demo.avg_rmsds "rmsd" Demo.corpus)
    by (split; intros; [reflexivity | discriminate]).
  assert (H4 : "struct" = "rmsd" -> Order.strict_weak Z.ltb)
    by (intros; discriminate).
  split.
  - split; [exact H1 | split; [exact H2 | split; [exact H3 |]]].
    exact (proj1 slicing_rule Z Z.ltb Demo.avg_rmsds Demo.corpus ([], [], [])
             (mk_config 1) "struct" H1 H4 H2 H3).
  - split; [exact H1' | split; [exact Z_ltb_strict_weak |
      split; [exact H2 | split; [exact H3' |]]]].
    exact (proj1 slicing_rule Z Z.ltb Demo.avg_rmsds Demo.corpus ([], [], [])
             (mk_config 1) "rmsd" H1' (fun _ => Z_ltb_strict_weak) H2 H3').
Defined.

(** ** Partition *)

(** C2, as stated, at a [seq_identity] artifact that lists index 0 three
    times: the split is returned and is no partition of the two
    samples. *)
Lemma partition_fails_seq_identity :
  get_data_splits Z.ltb Demo.avg_rmsds [Demo.demo_a; Demo.demo_b]
    ([0], [0], [0]) (mk_config 1) "seq_identity"
  = ret ([Demo.demo_a], [Demo.demo_a], [Demo.demo_a])
  /\ ~ Permutation ([Demo.demo_a] ++ [Demo.demo_a] ++ [Demo.demo_a])
                   [Demo.demo_a; Demo.demo_b].
Proof.
  split; [reflexivity |].
  intros H. apply Permutation_length in H. discriminate.
Qed.

(** C2, amended: for every corpus and every strategy other than
    [seq_identity], with a non-negative [eval_size], the splitter
    returns (given that the ordering step goes through) three sequences
    that partition the samples: test, val and train together hold every
    sample exactly once. *)
Theorem partition_sliced :
  forall (K : Type) (ltb : K -> K -> bool)
         (get_avg_rmsds : list sample -> list K)
         (data_list : list sample) (artifact : split_artifact)
         (config : Config) (split_type : string),
    split_type <> "seq_identity" ->
    0 <= eval_size config ->
    orderable get_avg_rmsds split_type data_list ->
    exists train_list val_list test_list,
      get_data_splits ltb get_avg_rmsds data_list artifact config split_type
      = ret (train_list, val_list, test_list)
      /\ Permutation (test_list ++ val_list ++ train_list) data_list
      /\ (NoDup data_list -> NoDup (test_list ++ val_list ++ train_list)).
Proof.
  intros K ltb get_avg_rmsds data_list artifact config split_type Hseq He Hord.
  rewrite SplitFacts.split_sliced by assumption.
  unfold create_splits. do 3 eexists. split; [reflexivity |].
  rewrite PyFacts.slices_concat by assumption.
  assert (Hperm : Permutation
            (sample_order ltb get_avg_rmsds split_type data_list) data_list)
    by (apply SplitFacts.sample_order_perm; apply Hord).
  split; [exact Hperm |].
  intros Hnd. eapply Permutation_NoDup; [symmetry; exact Hperm | exact Hnd].
Qed.

Lemma partition_sliced_witness :
  exists train_list val_list test_list,
    get_data_splits Z.ltb Demo.avg_rmsds Demo.corpus ([], [], []) (mk_config 1) "rmsd"
    = ret (train_list, val_list, test_list)
    /\ Permutation (test_list ++ val_list ++ train_list) Demo.corpus
    /\ (NoDup Demo.corpus -> NoDup (test_list ++ val_list ++ train_list)).
Proof.
  apply (partition_sliced Z Z.ltb Demo.avg_rmsds Demo.corpus ([], [], [])
           (mk_config 1) "rmsd").
  - discriminate.
  - simpl; lia.
  - split; intros; [reflexivity | discriminate].
Defined.

(** ** Sorting before slicing *)

Lemma strongly_sorted_weaken {A : Type} (R S : A -> A -> Prop) (l : list A) :
  (forall x y, R x y -> S x y) -> StronglySorted R l -> StronglySorted S l.
Proof.
  intros HRS. induction 1 as [| x l _ IH Hx]; constructor; [assumption |].
  apply Forall_impl with (2 := Hx). intros y. apply HRS.
Qed.

Lemma ties_structure_count (c : nat) (data : sample) :
  Order.ties structure_count Nat.ltb c data = Nat.eqb (structure_count data) c.
Proof.
  unfold Order.ties.
  destruct (Nat.ltb_spec c (structure_count data)),
           (Nat.ltb_spec (structure_count data) c),
           (Nat.eqb_spec (structure_count data) c); simpl; try reflexivity; lia.
Qed.

(** C3: under [rmsd] and [struct] the sequence that is sliced, test then
    val then train, is the samples sorted by the metric in non-increasing
    order, and samples whose metrics tie keep the order they had in the
    corpus. *)
Theorem sorted_before_slicing :
  (forall (K : Type) (ltb : K -> K -> bool)
          (get_avg_rmsds : list sample -> list K)
          (data_list : list sample) (artifact : split_artifact) (config : Config),
      Order.strict_weak ltb ->
      0 <= eval_size config ->
      length (get_avg_rmsds data_list) = length data_list ->
      data_list <> [] ->
      exists train_list val_list test_list ranked,
        get_data_splits ltb get_avg_rmsds data_list artifact config "rmsd"
        = ret (train_list, val_list, test_list)
        /\ test_list ++ val_list ++ train_list = map fst ranked
        /\ Permutation ranked (combine data_list (get_avg_rmsds data_list))
        /\ StronglySorted (Order.desc snd ltb) ranked
        /\ forall k, filter (Order.ties snd ltb k) ranked
                     = filter (Order.ties snd ltb k)
                         (combine data_list (get_avg_rmsds data_list)))
  /\ (forall (K : Type) (ltb : K -> K -> bool)
             (get_avg_rmsds : list sample -> list K)
             (data_list : list sample) (artifact : split_artifact) (config : Config),
         0 <= eval_size config ->
         data_list <> [] ->
         exists train_list val_list test_list,
           get_data_splits ltb get_avg_rmsds data_list artifact config "struct"
           = ret (train_list, val_list, test_list)
           /\ Permutation (test_list ++ val_list ++ train_list) data_list
           /\ StronglySorted
                (fun a b => (structure_count b <= structure_count a)%nat)
                (test_list ++ val_list ++ train_list)
           /\ forall c,
                filter (fun s => Nat.eqb (structure_count s) c)
                       (test_list ++ val_list ++ train_list)
                = filter (fun s => Nat.eqb (structure_count s) c) data_list).
Proof.
  split.
  - intros K ltb get_avg_rmsds data_list artifact config [Hirr Htr Hneg]
      He Hlen Hne.
    rewrite SplitFacts.split_rmsd by assumption.
    unfold create_splits. do 3 eexists.
    exists (ranked_by_rmsd ltb get_avg_rmsds data_list).
    split; [reflexivity |].
    split; [now apply PyFacts.slices_concat |].
    unfold ranked_by_rmsd.
    split; [apply SortFacts.sorted_reverse_perm |].
    split; [now apply SortFacts.sorted_reverse_desc |].
    intros k. now apply SortFacts.sorted_reverse_stable.
  - intros K ltb get_avg_rmsds data_list artifact config He Hne.
    rewrite SplitFacts.split_struct by assumption.
    unfold create_splits. do 3 eexists.
    split; [reflexivity |].
    rewrite PyFacts.slices_concat by assumption.
    split; [apply SortFacts.sorted_reverse_perm |].
    split.
    + apply strongly_sorted_weaken
        with (R := Order.desc structure_count Nat.ltb).
      * unfold Order.desc. intros x y Hxy. apply Nat.ltb_ge in Hxy. exact Hxy.
      * apply SortFacts.sorted_reverse_desc.
        -- exact SortFacts.nat_ltb_irrefl.
        -- exact SortFacts.nat_ltb_trans.
        -- exact SortFacts.nat_ltb_negtrans.
    + intros c.
      rewrite <- !(filter_ext _ _ (ties_structure_count c)).
      apply SortFacts.sorted_reverse_stable.
      exact SortFacts.nat_ltb_negtrans.
Qed.

Lemma sorted_before_slicing_witness :
  (exists train_list val_list test_list ranked,
      get_data_splits Z.ltb Demo.avg_rmsds Demo.corpus ([], [], []) (mk_config 1) "rmsd"
      = ret (train_list, val_list, test_list)
      /\ test_list ++ val_list ++ train_list = map fst ranked
      /\ Permutation ranked (combine Demo.corpus (Demo.avg_rmsds Demo.corpus))
      /\ StronglySorted (Order.desc snd Z.ltb) ranked
      /\ forall k, filter (Order.ties snd Z.ltb k) ranked
                   = filter (Order.ties snd Z.ltb k)
                       (combine Demo.corpus (Demo.avg_rmsds Demo.corpus)))
  /\ (exists train_list val_list test_list,
         get_data_splits Z.ltb Demo.avg_rmsds Demo.corpus ([], [], []) (mk_config 1) "struct"
         = ret (train_list, val_list, test_list)
         /\ Permutation (test_list ++ val_list ++ train_list) Demo.corpus
         /\ StronglySorted
              (fun a b => (structure_count b <= structure_count a)%nat)
              (test_list ++ val_list ++ train_list)
         /\ forall c,
              filter (fun s => Nat.eqb (structure_count s) c)
                     (test_list ++ val_list ++ train_list)
              = filter (fun s => Nat.eqb (structure_count s) c) Demo.corpus).
Proof.
  split.
  - apply (proj1 sorted_before_slicing Z Z.ltb Demo.avg_rmsds Demo.corpus
             ([], [], []) (mk_config 1)).
    + exact Z_ltb_strict_weak.
    + simpl; lia.
    + reflexivity.
    + discriminate.
  - apply (proj2 sorted_before_slicing Z Z.ltb Demo.avg_rmsds Demo.corpus
             ([], [], []) (mk_config 1)).
    + simpl; lia.
    + discriminate.
Defined.

(** The run behind the witness: the two samples with three conformers
    tie and stay in corpus order, ahead of the one with a single
    conformer. *)
Example struct_order_demo :
  sample_order Z.ltb Demo.avg_rmsds "struct" Demo.corpus
  = [Demo.demo_b; Demo.demo_c; Demo.demo_a]
  /\ sample_order Z.ltb Demo.avg_rmsds "rmsd" Demo.corpus
     = [Demo.demo_b; Demo.demo_c; Demo.demo_a].
Proof. split; reflexivity. Qed.

(** ** The precomputed artifact of [seq_identity] *)

(** C4, as stated, at two artifacts for a corpus of two samples: one
    whose lists overlap and leave index 1 out, which is accepted, and
    one with index 2 out of range, which ends in an IndexError. Neither
    is a DataError. *)
Lemma artifact_not_validated :
  get_data_splits Z.ltb Demo.avg_rmsds [Demo.demo_a; Demo.demo_b]
    ([0], [0], [0]) (mk_config 1) "seq_identity"
  = ret ([Demo.demo_a], [Demo.demo_a], [Demo.demo_a])
  /\ ~ raises (get_data_splits Z.ltb Demo.avg_rmsds [Demo.demo_a; Demo.demo_b]
                 ([0], [0], [0]) (mk_config 1) "seq_identity") "DataError"
  /\ raises (get_data_splits Z.ltb Demo.avg_rmsds [Demo.demo_a; Demo.demo_b]
               ([0], [1], [2]) (mk_config 1) "seq_identity") "IndexError"
  /\ ~ raises (get_data_splits Z.ltb Demo.avg_rmsds [Demo.demo_a; Demo.demo_b]
                 ([0], [1], [2]) (mk_config 1) "seq_identity") "DataError".
Proof.
  repeat split; try reflexivity; intros H; discriminate H.
Qed.

(** C4, amended: for [seq_identity] the artifact is not validated. When
    every listed index lies in [-len(samples) <= i < len(samples)] the
    split is returned with each index looked up as listed, whether or
    not the lists overlap or cover the corpus; when some listed index
    lies outside, the split fails with an IndexError. *)
Theorem seq_identity_lookup :
  forall (K : Type) (ltb : K -> K -> bool)
         (get_avg_rmsds : list sample -> list K)
         (data_list : list sample) (train_idx val_idx test_idx : list Z)
         (config : Config),
    (Forall (in_range data_list) (train_idx ++ val_idx ++ test_idx) ->
     exists train_list val_list test_list,
       get_data_splits ltb get_avg_rmsds data_list
         (train_idx, val_idx, test_idx) config "seq_identity"
       = ret (train_list, val_list, test_list)
       /\ Forall2 (fun i s => Py.getitem data_list i = ret s) train_idx train_list
       /\ Forall2 (fun i s => Py.getitem data_list i = ret s) val_idx val_list
       /\ Forall2 (fun i s => Py.getitem data_list i = ret s) test_idx test_list)
    /\ (Exists (fun i => ~ in_range data_list i) (train_idx ++ val_idx ++ test_idx) ->
        raises (get_data_splits ltb get_avg_rmsds data_list
                  (train_idx, val_idx, test_idx) config "seq_identity")
               "IndexError").
Proof.
  intros K ltb get_avg_rmsds data_list train_idx val_idx test_idx config.
  unfold get_data_splits. simpl String.eqb. cbv iota.
  split.
  - intros Hall. apply Forall_app in Hall as [Htr Hall].
    apply Forall_app in Hall as [Hva Hte].
    destruct (SplitFacts.index_list_in_range data_list train_idx Htr)
      as [tr [Etr Ftr]].
    destruct (SplitFacts.index_list_in_range data_list val_idx Hva)
      as [va [Eva Fva]].
    destruct (SplitFacts.index_list_in_range data_list test_idx Hte)
      as [te [Ete Fte]].
    exists tr, va, te. rewrite Etr, Eva, Ete. auto.
  - intros Hex. unfold raises.
    assert (Hout : forall idx,
               Exists (fun i => ~ in_range data_list i) idx ->
               index_list_by_indices data_list idx = raise "IndexError").
    { intros idx H. apply SplitFacts.index_list_out_of_range.
      apply Exists_impl with (2 := H). unfold in_range. intros i Hi. lia. }
    destruct (SplitFacts.index_list_cases data_list train_idx)
      as [[tr Etr] | Etr]; rewrite Etr; [| reflexivity].
    destruct (SplitFacts.index_list_cases data_list val_idx)
      as [[va Eva] | Eva]; rewrite Eva; [| reflexivity].
    destruct (SplitFacts.index_list_cases data_list test_idx)
      as [[te Ete] | Ete]; rewrite Ete; [| reflexivity].
    apply Exists_app in Hex as [H | H];
      [apply Hout in H; rewrite H in Etr; discriminate Etr |].
    apply Exists_app in H as [H | H]; apply Hout in H.
    + rewrite H in Eva. discriminate Eva.
    + rewrite H in Ete. discriminate Ete.
Qed.

Lemma seq_identity_lookup_witness :
  (exists train_list val_list test_list,
      get_data_splits Z.ltb Demo.avg_rmsds Demo.corpus
        ([0; 1], [1; -1], []) (mk_config 1) "seq_identity"
      = ret (train_list, val_list, test_list)
      /\ Forall2 (fun i s => Py.getitem Demo.corpus i = ret s) [0; 1] train_list
      /\ Forall2 (fun i s => Py.getitem Demo.corpus i = ret s) [1; -1] val_list
      /\ Forall2 (fun i s => Py.getitem Demo.corpus i = ret s) [] test_list)
  /\ raises (get_data_splits Z.ltb Demo.avg_rmsds Demo.corpus
               ([0], [1], [3]) (mk_config 1) "seq_identity")
            "IndexError".
Proof.
  split.
  - apply (proj1 (seq_identity_lookup Z Z.ltb Demo.avg_rmsds Demo.corpus
                    [0; 1] [1; -1] [] (mk_config 1))).
    repeat constructor; simpl; lia.
  - apply (proj2 (seq_identity_lookup Z Z.ltb Demo.avg_rmsds Demo.corpus
                    [0] [1] [3] (mk_config 1))).
    simpl. do 2 apply Exists_cons_tl. apply Exists_cons_hd.
    unfold in_range. simpl. lia.
Defined.



(** ** Configuration that the spec rejects *)

(** C5, as stated, at three samples with [eval_size = 2] under the
    random strategy: [2 * eval_size >= 3], and the split is returned,
    with an empty train sequence. *)
Lemma oversized_eval_size_returns :
  2 * eval_size (mk_config 2) >= Z.of_nat (length Demo.corpus)
  /\ get_data_splits Z.ltb Demo.avg_rmsds Demo.corpus ([], [], [])
       (mk_config 2) "random"
     = ret ([], [Demo.demo_c], [Demo.demo_a; Demo.demo_b])
  /\ ~ raises (get_data_splits Z.ltb Demo.avg_rmsds Demo.corpus ([], [], [])
                 (mk_config 2) "random") "ConfigError".
Proof.
  split; [simpl; lia |]. split; [reflexivity |].
  intros H. discriminate H.
Qed.

(** C5, amended: for every corpus and every non-negative [eval_size]
    with [2 * eval_size >= total sample count], under every strategy
    other than [seq_identity] whose ordering step goes through, the
    splitter returns a split whose train sequence is empty. *)
Theorem oversized_eval_size_empty_train :
  forall (K : Type) (ltb : K -> K -> bool)
         (get_avg_rmsds : list sample -> list K)
         (data_list : list sample) (artifact : split_artifact)
         (config : Config) (split_type : string),
    split_type <> "seq_identity" ->
    0 <= eval_size config ->
    orderable get_avg_rmsds split_type data_list ->
    2 * eval_size config >= Z.of_nat (length data_list) ->
    exists val_list test_list,
      get_data_splits ltb get_avg_rmsds data_list artifact config split_type
      = ret ([], val_list, test_list).
Proof.
  intros K ltb get_avg_rmsds data_list artifact config split_type
    Hseq He Hord Hbig.
  rewrite SplitFacts.split_sliced by assumption.
  unfold create_splits. do 2 eexists.
  rewrite PyFacts.slice_suffix by lia.
  rewrite skipn_all2; [reflexivity |].
  rewrite (Permutation_length
             (SplitFacts.sample_order_perm ltb get_avg_rmsds split_type
                data_list (proj1 Hord))).
  lia.
Qed.

Lemma oversized_eval_size_empty_train_witness :
  exists val_list test_list,
    get_data_splits Z.ltb Demo.avg_rmsds Demo.corpus ([], [], [])
      (mk_config 2) "struct"
    = ret ([], val_list, test_list).
Proof.
  apply (oversized_eval_size_empty_train Z Z.ltb Demo.avg_rmsds Demo.corpus
           ([], [], []) (mk_config 2) "struct").
  - discriminate.
  - simpl; lia.
  - split; intros; discriminate.
  - simpl; lia.
Defined.

(** C6, as stated, at the strategy name "kmeans": the split is returned,
    the same one as under "random". *)
Lemma unknown_strategy_returns :
  get_data_splits Z.ltb Demo.avg_rmsds Demo.corpus ([], [], [])
    (mk_config 1) "kmeans"
  = ret ([Demo.demo_c], [Demo.demo_b], [Demo.demo_a])
  /\ ~ raises (get_data_splits Z.ltb Demo.avg_rmsds Demo.corpus ([], [], [])
                 (mk_config 1) "kmeans") "ConfigError".
Proof.
  split; [reflexivity |]. intros H. discriminate H.
Qed.

(** C6, amended: a strategy value outside [seq_identity], [rmsd] and
    [struct], whether "random" or unknown, takes the random path: the
    splitter returns the slices of the corpus in source order, as it
    does for "random", and raises no error. *)
Theorem unknown_strategy_is_random :
  forall (K : Type) (ltb : K -> K -> bool)
         (get_avg_rmsds : list sample -> list K)
         (data_list : list sample) (artifact : split_artifact)
         (config : Config) (split_type : string),
    split_type <> "seq_identity" ->
    split_type <> "rmsd" ->
    split_type <> "struct" ->
    get_data_splits ltb get_avg_rmsds data_list artifact config split_type
    = ret (create_splits config data_list)
    /\ get_data_splits ltb get_avg_rmsds data_list artifact config split_type
       = get_data_splits ltb get_avg_rmsds data_list artifact config "random".
Proof.
  intros K ltb get_avg_rmsds data_list artifact config split_type H1 H2 H3.
  rewrite SplitFacts.split_random by assumption.
  split; [reflexivity |].
  symmetry. apply SplitFacts.split_random; discriminate.
Qed.

Lemma unknown_strategy_is_random_witness :
  get_data_splits Z.ltb Demo.avg_rmsds Demo.corpus ([], [], [])
    (mk_config 1) "kmeans"
  = ret (create_splits (mk_config 1) Demo.corpus)
  /\ get_data_splits Z.ltb Demo.avg_rmsds Demo.corpus ([], [], [])
       (mk_config 1) "kmeans"
     = get_data_splits Z.ltb Demo.avg_rmsds Demo.corpus ([], [], [])
         (mk_config 1) "random".
Proof.
  apply (unknown_strategy_is_random Z Z.ltb Demo.avg_rmsds Demo.corpus
           ([], [], []) (mk_config 1) "kmeans"); discriminate.
Defined.

(** ** Metric lists *)

(** C7, as stated, at a metric function that returns no value for three
    samples: the [rmsd] split fails on its [assert], with an
    AssertionError. *)
Lemma metric_mismatch_is_assertion :
  length (Demo.no_rmsds Demo.corpus) <> length Demo.corpus
  /\ raises (get_data_splits Z.ltb Demo.no_rmsds Demo.corpus ([], [], [])
               (mk_config 1) "rmsd") "AssertionError"
  /\ ~ raises (get_data_splits Z.ltb Demo.no_rmsds Demo.corpus ([], [], [])
                 (mk_config 1) "rmsd") "DataError".
Proof.
  split; [discriminate |]. split; [reflexivity |].
  intros H. discriminate H.
Qed.

(** C7, amended: under [rmsd], whenever the metric list's length differs
    from the sample list's length the splitter fails with an
    AssertionError; under [struct] the metric list is computed with one
    entry per sample, and the splitter never fails on the length
    check. *)
Theorem metric_length_check :
  (forall (K : Type) (ltb : K -> K -> bool)
          (get_avg_rmsds : list sample -> list K)
          (data_list : list sample) (artifact : split_artifact) (config : Config),
      length (get_avg_rmsds data_list) <> length data_list ->
      raises (get_data_splits ltb get_avg_rmsds data_list artifact config "rmsd")
             "AssertionError")
  /\ (forall (K : Type) (ltb : K -> K -> bool)
             (get_avg_rmsds : list sample -> list K)
             (data_list : list sample) (artifact : split_artifact)
             (config : Config),
         length (map structure_count data_list) = length data_list
         /\ ~ raises (get_data_splits ltb get_avg_rmsds data_list artifact
                        config "struct") "AssertionError").
Proof.
  split.
  - intros. now apply SplitFacts.split_rmsd_mismatch.
  - intros K ltb get_avg_rmsds data_list artifact config.
    split; [apply length_map |].
    destruct data_list as [| d data_list].
    + intros H. discriminate H.
    + rewrite SplitFacts.split_struct by discriminate.
      intros H. discriminate H.
Qed.

Lemma metric_length_check_witness :
  raises (get_data_splits Z.ltb Demo.no_rmsds Demo.corpus ([], [], [])
            (mk_config 1) "rmsd") "AssertionError".
Proof.
  apply (proj1 metric_length_check Z Z.ltb Demo.no_rmsds Demo.corpus
           ([], [], []) (mk_config 1)).
  discriminate.
Defined.

(** ** The empty corpus *)

Lemma slice_nil {A : Type} (start stop : option Z) :
  Py.slice (@nil A) start stop = [].
Proof. unfold Py.slice. now rewrite skipn_nil, firstn_nil. Qed.

(** C10: on an empty corpus the [struct] and [rmsd] strategies fail when
    the sorted pairs are unpacked, with a ValueError, while the random
    strategy returns three empty splits. For [rmsd] the unpacking is
    reached when the metric function gives no value for no sample;
    whatever it gives, the split fails. *)
Theorem empty_corpus :
  forall (K : Type) (ltb : K -> K -> bool)
         (get_avg_rmsds : list sample -> list K)
         (artifact : split_artifact) (config : Config),
    raises (get_data_splits ltb get_avg_rmsds [] artifact config "struct")
           "ValueError"
    /\ (get_avg_rmsds [] = [] ->
        raises (get_data_splits ltb get_avg_rmsds [] artifact config "rmsd")
               "ValueError")
    /\ (exists cls,
           raises (get_data_splits ltb get_avg_rmsds [] artifact config "rmsd")
                  cls)
    /\ get_data_splits ltb get_avg_rmsds [] artifact config "random"
       = ret ([], [], []).
Proof.
  intros K ltb get_avg_rmsds artifact config.
  split; [reflexivity |].
  split.
  - intros Hnil. unfold raises, get_data_splits. simpl String.eqb. cbv iota.
    rewrite Hnil. reflexivity.
  - split.
    + unfold raises, get_data_splits. simpl String.eqb. cbv iota.
      destruct (get_avg_rmsds []) as [| k m].
      * exists "ValueError". reflexivity.
      * exists "AssertionError". reflexivity.
    + unfold get_data_splits. simpl String.eqb. cbv iota.
      simpl bind. now rewrite !slice_nil.
Qed.

Lemma empty_corpus_witness :
  raises (get_data_splits Z.ltb Demo.avg_rmsds [] ([], [], []) (mk_config 1)
            "rmsd") "ValueError".
Proof.
  apply (proj1 (proj2 (empty_corpus Z Z.ltb Demo.avg_rmsds ([], [], [])
                         (mk_config 1)))).
  reflexivity.
Defined.

(** ** Batches *)

(** C8: in every epoch of a Batch Sampler every emitted batch is within
    [max_nodes], except a singleton batch whose only member is alone
    above the budget, and every index of the split is in exactly one
    batch. [drawn] is the permutation of the indices that the random
    source gives for the epoch, used when [shuffle] is set. *)
Theorem epoch_budget_and_coverage :
  forall (node_counts : list nat) (max_nodes : nat) (shuffle : bool)
         (drawn : list nat),
    Permutation drawn (seq 0 (length node_counts)) ->
    let batches := BatchSampler.epoch node_counts max_nodes shuffle drawn in
    Forall (BatchSampler.within_budget node_counts max_nodes) batches
    /\ Permutation (concat batches) (seq 0 (length node_counts))
    /\ (forall i, (i < length node_counts)%nat ->
                  BatchSampler.batches_holding i batches = 1%nat).
Proof.
  intros node_counts max_nodes shuffle drawn Hperm batches.
  assert (Hcover : Permutation (concat batches) (seq 0 (length node_counts))).
  { unfold batches. rewrite BatchFacts.epoch_concat.
    destruct shuffle; simpl; [exact Hperm | reflexivity]. }
  split.
  - unfold batches, BatchSampler.epoch.
    apply BatchFacts.pack_within_budget; [reflexivity |].
    left. simpl. lia.
  - split; [exact Hcover |].
    intros i Hi. apply BatchFacts.holding_unique.
    + eapply Permutation_NoDup; [symmetry; exact Hcover | apply seq_NoDup].
    + eapply Permutation_in; [symmetry; exact Hcover |].
      apply in_seq. lia.
Qed.

Lemma epoch_budget_and_coverage_witness :
  let batches := BatchSampler.epoch [60; 40; 30; 20; 10]%nat 50 true [4; 3; 2; 1; 0]%nat in
  batches = [[4; 3]; [2]; [1]; [0]]%nat
  /\ Forall (BatchSampler.within_budget [60; 40; 30; 20; 10]%nat 50) batches
  /\ Permutation (concat batches) (seq 0 5)
  /\ (forall i, (i < 5)%nat -> BatchSampler.batches_holding i batches = 1%nat).
Proof.
  split; [reflexivity |].
  apply (epoch_budget_and_coverage [60; 40; 30; 20; 10]%nat 50 true [4; 3; 2; 1; 0]%nat).
  apply Permutation_sym. exact (Permutation_rev [0; 1; 2; 3; 4]%nat).
Defined.


(** * Further properties of the splitting code *)

(** ** Sizes of the splits *)

Module SliceFacts.




End SliceFacts.

(** X1: under every strategy other than [seq_identity], with a
    non-negative [eval_size] [e] and [n] samples, test holds [min e n]
    samples, val [min e (n - e)] and train [n - 2 e], subtraction
    stopping at zero. *)
Theorem split_sizes :
  forall (K : Type) (ltb : K -> K -> bool)
         (get_avg_rmsds : list sample -> list K)
         (data_list : list sample) (artifact : split_artifact)
         (config : Config) (split_type : string),
    split_type <> "seq_identity" ->
    0 <= eval_size config ->
    orderable get_avg_rmsds split_type data_list ->
    let n := length data_list in
    let e := Z.to_nat (eval_size config) in
    exists train_list val_list test_list,
      get_data_splits ltb get_avg_rmsds data_list artifact config split_type
      = ret (train_list, val_list, test_list)
      /\ length test_list = Nat.min e n
      /\ length val_list = Nat.min e (n - e)
      /\ length train_list = (n - (e + e))%nat.
Proof.
  intros K ltb get_avg_rmsds data_list artifact config split_type
    Hseq He Hord n e.
  rewrite SplitFacts.split_sliced by assumption.
  unfold create_splits. do 3 eexists. split; [reflexivity |].
  rewrite PyFacts.slice_prefix, PyFacts.slice_middle, PyFacts.slice_suffix by lia.
  assert (Hn : length (sample_order ltb get_avg_rmsds split_type data_list) = n).
  { apply Permutation_length, SplitFacts.sample_order_perm, Hord. }
  rewrite !length_firstn, !length_skipn, Hn.
  replace (Z.to_nat (2 * eval_size config - eval_size config)) with e
    by (unfold e; lia).
  replace (Z.to_nat (2 * eval_size config)) with (e + e)%nat by (unfold e; lia).
  fold e. auto.
Qed.

Lemma split_sizes_witness :
  exists train_list val_list test_list,
    get_data_splits Z.ltb Demo.avg_rmsds Demo.corpus ([], [], []) (mk_config 2)
      "struct"
    = ret (train_list, val_list, test_list)
    /\ length test_list = 2%nat
    /\ length val_list = 1%nat
    /\ length train_list = 0%nat.
Proof.
  apply (split_sizes Z Z.ltb Demo.avg_rmsds Demo.corpus ([], [], [])
           (mk_config 2) "struct").
  - discriminate.
  - simpl; lia.
  - split; intros; discriminate.
Defined.



(** ** Order of the sorted strategies *)

Module OrderFacts.

Section Fixed.
Context {A K : Type}.
Variable key : A -> K.
Variable ltb : K -> K -> bool.

(** An ascending list is left as it is by [sorted]. *)
Lemma sorted_fixed (l : list A) :
  StronglySorted (Order.asc key ltb) l -> Py.sorted key ltb l = l.
Proof.
  induction 1 as [| x l _ IH Hx]; [reflexivity |].
  simpl. rewrite IH. destruct l as [| y l']; [reflexivity |].
  inversion Hx as [| ? ? Hxy _]; subst. simpl.
  unfold Order.asc in Hxy. now rewrite Hxy.
Qed.

(** A non-increasing list is left as it is by
    [sorted(..., reverse=True)]. *)
Lemma sorted_reverse_fixed (l : list A) :
  StronglySorted (Order.desc key ltb) l -> Py.sorted_reverse key ltb l = l.
Proof.
  intros Hs. unfold Py.sorted_reverse.
  rewrite sorted_fixed; [apply rev_involutive |].
  exact (SortFacts.strongly_sorted_rev (Order.desc key ltb) l Hs).
Qed.
End Fixed.

Lemma strongly_sorted_app_inv {A : Type} (R : A -> A -> Prop) (a b : list A) :
  StronglySorted R (a ++ b) -> StronglySorted R b.
Proof.
  induction a as [| x a IH]; simpl; intros H; [assumption |].
  inversion H; subst. now apply IH.
Qed.

(** In a sorted list every item of a front part is related to every
    item behind it. *)
Lemma strongly_sorted_app_cross {A : Type} (R : A -> A -> Prop) (a b : list A) :
  StronglySorted R (a ++ b) ->
  forall x y, In x a -> In y b -> R x y.
Proof.
  induction a as [| z a IH]; simpl; intros H x y Hx Hy; [contradiction |].
  inversion H as [| ? ? Hs Hz]; subst.
  destruct Hx as [-> | Hx].
  - rewrite Forall_forall in Hz. apply Hz. apply in_or_app. now right.
  - now apply IH.
Qed.

(** Three consecutive parts of a sorted list are related pairwise. *)
Lemma strongly_sorted_three {A : Type} (R : A -> A -> Prop) (a b c : list A) :
  StronglySorted R (a ++ b ++ c) ->
  (forall x y, In x a -> In y b -> R x y)
  /\ (forall x y, In x b -> In y c -> R x y)
  /\ (forall x y, In x a -> In y c -> R x y).
Proof.
  intros H. repeat split; intros x y Hx Hy.
  - apply (strongly_sorted_app_cross R a (b ++ c) H); [assumption |].
    apply in_or_app. now left.
  - apply (strongly_sorted_app_cross R b c); [| assumption | assumption].
    now apply strongly_sorted_app_inv in H.
  - apply (strongly_sorted_app_cross R a (b ++ c) H); [assumption |].
    apply in_or_app. now right.
Qed.

Lemma map_fst_combine {A B : Type} (l : list A) (m : list B) :
  length m = length l -> map fst (combine l m) = l.
Proof.
  revert m. induction l as [| x l IH]; intros [| y m] Hlen;
    simpl in *; try discriminate; [reflexivity |].
  f_equal. apply IH. lia.
Qed.

(** Two sorted arrangements of the same items agree when the order
    tells any two of the items apart. *)
Lemma sorted_unique {A : Type} (R : A -> A -> Prop) (l1 : list A) :
  forall l2,
    Permutation l1 l2 ->
    StronglySorted R l1 -> StronglySorted R l2 ->
    (forall x y, In x l1 -> In y l1 -> R x y -> R y x -> x = y) ->
    l1 = l2.
Proof.
  induction l1 as [| x l1 IH]; intros l2 Hp H1 H2 Hanti.
  - apply Permutation_nil in Hp. now subst.
  - destruct l2 as [| y l2].
    { symmetry in Hp. apply Permutation_nil in Hp. discriminate. }
    inversion H1 as [| ? ? Hs1 Hx]; subst.
    inversion H2 as [| ? ? Hs2 Hy]; subst.
    rewrite Forall_forall in Hx, Hy.
    assert (Hxy : x = y).
    { assert (Hin_x : In x (y :: l2))
        by (apply (Permutation_in x Hp); now left).
      assert (Hin_y : In y (x :: l1))
        by (apply (Permutation_in y (Permutation_sym Hp)); now left).
      destruct Hin_x as [E | Hin_x]; [now symmetry |].
      destruct Hin_y as [E | Hin_y]; [assumption |].
      apply Hanti; [now left | now right | now apply Hx | now apply Hy]. }
    subst y. f_equal. apply IH.
    + now apply Permutation_cons_inv in Hp.
    + assumption.
    + assumption.
    + intros a b Ha Hb. apply Hanti; now right.
Qed.

Lemma nodup_map_injective {A B : Type} (f : A -> B) (l : list A) :
  NoDup (map f l) ->
  forall x y, In x l -> In y l -> f x = f y -> x = y.
Proof.
  induction l as [| z l IH]; simpl; intros Hnd x y Hx Hy Hf; [contradiction |].
  inversion Hnd as [| ? ? Hz Hnd']; subst.
  destruct Hx as [-> | Hx], Hy as [-> | Hy].
  - reflexivity.
  - exfalso. apply Hz. rewrite Hf. now apply in_map.
  - exfalso. apply Hz. rewrite <- Hf. now apply in_map.
  - now apply IH.
Qed.

Lemma desc_structure_count (a b : sample) :
  Order.desc structure_count Nat.ltb a b
  <-> (structure_count b <= structure_count a)%nat.
Proof. unfold Order.desc. apply Nat.ltb_ge. Qed.

Lemma struct_order_sorted (data_list : list sample) :
  StronglySorted (Order.desc structure_count Nat.ltb)
    (Py.sorted_reverse structure_count Nat.ltb data_list).
Proof.
  apply SortFacts.sorted_reverse_desc.
  - exact SortFacts.nat_ltb_irrefl.
  - exact SortFacts.nat_ltb_trans.
  - exact SortFacts.nat_ltb_negtrans.
Qed.

End OrderFacts.

(** X3: a corpus that already is in non-increasing order of the metric
    is split by [struct], and by [rmsd], exactly as by the random
    path: sorting leaves it as it is. *)
Theorem presorted_is_random :
  forall (K : Type) (ltb : K -> K -> bool)
         (get_avg_rmsds : list sample -> list K)
         (data_list : list sample) (artifact : split_artifact) (config : Config),
    data_list <> [] ->
    (StronglySorted (fun a b => (structure_count b <= structure_count a)%nat)
       data_list ->
     get_data_splits ltb get_avg_rmsds data_list artifact config "struct"
     = get_data_splits ltb get_avg_rmsds data_list artifact config "random")
    /\ (length (get_avg_rmsds data_list) = length data_list ->
        StronglySorted (Order.desc snd ltb)
          (combine data_list (get_avg_rmsds data_list)) ->
        get_data_splits ltb get_avg_rmsds data_list artifact config "rmsd"
        = get_data_splits ltb get_avg_rmsds data_list artifact config "random").
Proof.
  intros K ltb get_avg_rmsds data_list artifact config Hne.
  rewrite (SplitFacts.split_random ltb get_avg_rmsds data_list artifact config
             "random") by discriminate.
  split.
  - intros Hs. rewrite SplitFacts.split_struct by assumption.
    rewrite OrderFacts.sorted_reverse_fixed; [reflexivity |].
    apply strongly_sorted_weaken with (2 := Hs).
    intros a b. apply OrderFacts.desc_structure_count.
  - intros Hlen Hs. rewrite SplitFacts.split_rmsd by assumption.
    unfold ranked_by_rmsd.
    rewrite OrderFacts.sorted_reverse_fixed by assumption.
    now rewrite OrderFacts.map_fst_combine.
Qed.

Lemma presorted_is_random_witness :
  (get_data_splits Z.ltb Demo.avg_rmsds [Demo.demo_b; Demo.demo_c; Demo.demo_a]
     ([], [], []) (mk_config 1) "struct"
   = get_data_splits Z.ltb Demo.avg_rmsds [Demo.demo_b; Demo.demo_c; Demo.demo_a]
       ([], [], []) (mk_config 1) "random")
  /\ (get_data_splits Z.ltb Demo.avg_rmsds [Demo.demo_b; Demo.demo_c; Demo.demo_a]
        ([], [], []) (mk_config 1) "rmsd"
      = get_data_splits Z.ltb Demo.avg_rmsds [Demo.demo_b; Demo.demo_c; Demo.demo_a]
          ([], [], []) (mk_config 1) "random").
Proof.
  destruct (presorted_is_random Z Z.ltb Demo.avg_rmsds
              [Demo.demo_b; Demo.demo_c; Demo.demo_a] ([], [], []) (mk_config 1))
    as [Hstruct Hrmsd]; [discriminate |].
  split.
  - apply Hstruct.
    repeat constructor; unfold structure_count; simpl; lia.
  - apply Hrmsd; [reflexivity |].
    repeat constructor.
Defined.

(** X4: under [struct] the splits hold progressively more structures:
    no val sample has more conformers than a test sample, and no train
    sample has more than a val or a test sample. *)
Theorem struct_splits_descend :
  forall (K : Type) (ltb : K -> K -> bool)
         (get_avg_rmsds : list sample -> list K)
         (data_list : list sample) (artifact : split_artifact) (config : Config),
    0 <= eval_size config ->
    data_list <> [] ->
    exists train_list val_list test_list,
      get_data_splits ltb get_avg_rmsds data_list artifact config "struct"
      = ret (train_list, val_list, test_list)
      /\ (forall t v, In t test_list -> In v val_list ->
                      (structure_count v <= structure_count t)%nat)
      /\ (forall v r, In v val_list -> In r train_list ->
                      (structure_count r <= structure_count v)%nat)
      /\ (forall t r, In t test_list -> In r train_list ->
                      (structure_count r <= structure_count t)%nat).
Proof.
  intros K ltb get_avg_rmsds data_list artifact config He Hne.
  rewrite SplitFacts.split_struct by assumption.
  unfold create_splits. do 3 eexists. split; [reflexivity |].
  pose proof (OrderFacts.struct_order_sorted data_list) as Hs.
  rewrite <- (PyFacts.slices_concat
                (Py.sorted_reverse structure_count Nat.ltb data_list)
                (eval_size config) He) in Hs.
  apply OrderFacts.strongly_sorted_three in Hs as [H1 [H2 H3]].
  repeat split; intros x y Hx Hy; apply OrderFacts.desc_structure_count; auto.
Qed.

Lemma struct_splits_descend_witness :
  exists train_list val_list test_list,
    get_data_splits Z.ltb Demo.avg_rmsds
      [Demo.demo_a; Demo.demo_b; DemoRun.demo_d] ([], [], []) (mk_config 1)
      "struct"
    = ret (train_list, val_list, test_list)
    /\ (forall t v, In t test_list -> In v val_list ->
                    (structure_count v <= structure_count t)%nat)
    /\ (forall v r, In v val_list -> In r train_list ->
                    (structure_count r <= structure_count v)%nat)
    /\ (forall t r, In t test_list -> In r train_list ->
                    (structure_count r <= structure_count t)%nat).
Proof.
  apply (struct_splits_descend Z Z.ltb Demo.avg_rmsds
           [Demo.demo_a; Demo.demo_b; DemoRun.demo_d] ([], [], []) (mk_config 1)).
  - simpl; lia.
  - discriminate.
Defined.

(** X5: when the avg. RMSD list is a per-sample value [f] of the samples
    in corpus order, the [rmsd] strategy slices the samples sorted on [f]
    in non-increasing order, so that no val sample is above a test sample
    and no train sample above a val or a test sample. *)
Theorem rmsd_sorts_samples :
  forall (K : Type) (ltb : K -> K -> bool)
         (get_avg_rmsds : list sample -> list K) (f : sample -> K)
         (data_list : list sample) (artifact : split_artifact) (config : Config),
    Order.strict_weak ltb ->
    get_avg_rmsds data_list = map f data_list ->
    0 <= eval_size config ->
    data_list <> [] ->
    exists train_list val_list test_list,
      get_data_splits ltb get_avg_rmsds data_list artifact config "rmsd"
      = ret (train_list, val_list, test_list)
      /\ test_list ++ val_list ++ train_list = Py.sorted_reverse f ltb data_list
      /\ (forall t v, In t test_list -> In v val_list -> ltb (f t) (f v) = false)
      /\ (forall v r, In v val_list -> In r train_list -> ltb (f v) (f r) = false)
      /\ (forall t r, In t test_list -> In r train_list -> ltb (f t) (f r) = false).
Proof.
  intros K ltb get_avg_rmsds f data_list artifact config [Hirr Htr Hneg]
    Hf He Hne.
  rewrite SplitFacts.split_rmsd; [| rewrite Hf; apply length_map | assumption].
  unfold ranked_by_rmsd. rewrite Hf.
  change (combine data_list (map f data_list)) with (Order.decorate f data_list).
  rewrite SortFacts.sorted_reverse_decorated.
  unfold create_splits. do 3 eexists. split; [reflexivity |].
  split; [now apply PyFacts.slices_concat |].
  pose proof (SortFacts.sorted_reverse_desc f ltb Hirr Htr Hneg data_list) as Hs.
  rewrite <- (PyFacts.slices_concat (Py.sorted_reverse f ltb data_list)
                (eval_size config) He) in Hs.
  apply OrderFacts.strongly_sorted_three in Hs as [H1 [H2 H3]].
  repeat split; intros x y Hx Hy; [apply H1 | apply H2 | apply H3]; assumption.
Qed.

Lemma rmsd_sorts_samples_witness :
  exists train_list val_list test_list,
    get_data_splits Z.ltb Demo.avg_rmsds Demo.corpus ([], [], []) (mk_config 1)
      "rmsd"
    = ret (train_list, val_list, test_list)
    /\ test_list ++ val_list ++ train_list
       = Py.sorted_reverse Demo.rmsd_of Z.ltb Demo.corpus
    /\ (forall t v, In t test_list -> In v val_list ->
                    Z.ltb (Demo.rmsd_of t) (Demo.rmsd_of v) = false)
    /\ (forall v r, In v val_list -> In r train_list ->
                    Z.ltb (Demo.rmsd_of v) (Demo.rmsd_of r) = false)
    /\ (forall t r, In t test_list -> In r train_list ->
                    Z.ltb (Demo.rmsd_of t) (Demo.rmsd_of r) = false).
Proof.
  apply (rmsd_sorts_samples Z Z.ltb Demo.avg_rmsds Demo.rmsd_of Demo.corpus
           ([], [], []) (mk_config 1)).
  - exact Z_ltb_strict_weak.
  - reflexivity.
  - simpl; lia.
  - discriminate.
Defined.

(** X6: when no two samples have the same number of structures, the
    [struct] split does not depend on the order in which the corpus
    lists them. *)
Theorem struct_split_order_independent :
  forall (K : Type) (ltb : K -> K -> bool)
         (get_avg_rmsds : list sample -> list K)
         (data_list data_list' : list sample) (artifact : split_artifact)
         (config : Config),
    Permutation data_list data_list' ->
    NoDup (map structure_count data_list) ->
    get_data_splits ltb get_avg_rmsds data_list artifact config "struct"
    = get_data_splits ltb get_avg_rmsds data_list' artifact config "struct".
Proof.
  intros K ltb get_avg_rmsds data_list data_list' artifact config Hp Hnd.
  destruct data_list as [| d data_list].
  { apply Permutation_nil in Hp. now subst. }
  assert (Hne' : data_list' <> []).
  { intros ->. symmetry in Hp. apply Permutation_nil in Hp. discriminate. }
  rewrite !SplitFacts.split_struct by (assumption || discriminate).
  f_equal. f_equal.
  apply (OrderFacts.sorted_unique (Order.desc structure_count Nat.ltb)).
  - rewrite !SortFacts.sorted_reverse_perm. exact Hp.
  - apply OrderFacts.struct_order_sorted.
  - apply OrderFacts.struct_order_sorted.
  - intros x y Hx Hy Hxy Hyx.
    apply OrderFacts.desc_structure_count in Hxy, Hyx.
    apply (OrderFacts.nodup_map_injective structure_count (d :: data_list) Hnd).
    + apply (Permutation_in x
               (SortFacts.sorted_reverse_perm structure_count Nat.ltb
                  (d :: data_list)) Hx).
    + apply (Permutation_in y
               (SortFacts.sorted_reverse_perm structure_count Nat.ltb
                  (d :: data_list)) Hy).
    + lia.
Qed.

Lemma struct_split_order_independent_witness :
  get_data_splits Z.ltb Demo.avg_rmsds DemoRun.distinct_corpus ([], [], [])
    (mk_config 1) "struct"
  = get_data_splits Z.ltb Demo.avg_rmsds DemoRun.distinct_corpus' ([], [], [])
      (mk_config 1) "struct".
Proof.
  apply (struct_split_order_independent Z Z.ltb Demo.avg_rmsds
           DemoRun.distinct_corpus DemoRun.distinct_corpus' ([], [], [])
           (mk_config 1)).
  - unfold DemoRun.distinct_corpus, DemoRun.distinct_corpus'.
    apply Permutation_sym.
    apply (Permutation_cons_app [Demo.demo_a; Demo.demo_b] [] DemoRun.demo_d).
    rewrite app_nil_r. apply Permutation_refl.
  - unfold DemoRun.distinct_corpus, structure_count. simpl.
    repeat constructor; simpl; intuition discriminate.
Defined.

(** ** Lookups of the [seq_identity] strategy *)

Module IndexFacts.

Lemma getitem_in {A : Type} (l : list A) (i : Z) (s : A) :
  Py.getitem l i = ret s -> In s l.
Proof.
  unfold Py.getitem. destruct ((_ <? 0) || _); [discriminate |].
  destruct (nth_error _ _) as [a |] eqn:E; [| discriminate].
  intros H. injection H as <-. now apply nth_error_In in E.
Qed.

Lemma getitem_of_nth_error {A : Type} (l : list A) (i : nat) (s : A) :
  nth_error l i = Some s -> Py.getitem l (Z.of_nat i) = ret s.
Proof.
  intros E. assert (Hi : (i < length l)%nat)
    by (apply nth_error_Some; congruence).
  unfold Py.getitem.
  destruct (Z.ltb_spec (Z.of_nat i) 0) as [Hneg | _]; [lia |].
  destruct (Z.ltb_spec (Z.of_nat i) 0) as [Hneg | _]; [lia |].
  destruct (Z.leb_spec (Z.of_nat (length l)) (Z.of_nat i)) as [Hbig | _]; [lia |].
  simpl. now rewrite Nat2Z.id, E.
Qed.

Lemma getitem_functional {A : Type} (l : list A) (idx : list Z) :
  forall p q,
    Forall2 (fun i s => Py.getitem l i = ret s) idx p ->
    Forall2 (fun i s => Py.getitem l i = ret s) idx q ->
    p = q.
Proof.
  induction idx as [| i idx IH]; intros p q Hp Hq;
    inversion Hp; inversion Hq; subst; [reflexivity |].
  f_equal; [unfold ret in *; congruence | now apply IH].
Qed.

(** Looking up the positions [k, k+1, ...] gives the items behind the
    first [k]. *)
Lemma getitem_seq {A : Type} (pre suf : list A) :
  Forall2 (fun i s => Py.getitem (pre ++ suf) i = ret s)
          (map Z.of_nat (seq (length pre) (length suf))) suf.
Proof.
  revert pre. induction suf as [| x suf IH]; intros pre; simpl; constructor.
  - apply getitem_of_nth_error.
    rewrite nth_error_app2 by lia. now rewrite Nat.sub_diag.
  - specialize (IH (pre ++ [x])).
    rewrite <- app_assoc, length_app, Nat.add_1_r in IH. exact IH.
Qed.

(** What the [seq_identity] branch returns when its three lookups do. *)
Lemma split_seq_identity {K : Type} (ltb : K -> K -> bool)
    (get_avg_rmsds : list sample -> list K) (data_list : list sample)
    (train_idx val_idx test_idx : list Z) (config : Config)
    (tr va te : list sample) :
  index_list_by_indices data_list train_idx = ret tr ->
  index_list_by_indices data_list val_idx = ret va ->
  index_list_by_indices data_list test_idx = ret te ->
  get_data_splits ltb get_avg_rmsds data_list (train_idx, val_idx, test_idx)
    config "seq_identity"
  = ret (tr, va, te).
Proof.
  intros Etr Eva Ete. unfold get_data_splits. simpl String.eqb. cbv iota.
  now rewrite Etr, Eva, Ete.
Qed.

End IndexFacts.

(** X7: under [seq_identity], when every listed index lies in
    [-len(samples) <= i < len(samples)], each returned split has as many
    samples as its index list has entries, and every returned sample is
    one of the corpus. *)
Theorem seq_identity_sizes :
  forall (K : Type) (ltb : K -> K -> bool)
         (get_avg_rmsds : list sample -> list K)
         (data_list : list sample) (train_idx val_idx test_idx : list Z)
         (config : Config),
    Forall (in_range data_list) (train_idx ++ val_idx ++ test_idx) ->
    exists train_list val_list test_list,
      get_data_splits ltb get_avg_rmsds data_list
        (train_idx, val_idx, test_idx) config "seq_identity"
      = ret (train_list, val_list, test_list)
      /\ length train_list = length train_idx
      /\ length val_list = length val_idx
      /\ length test_list = length test_idx
      /\ (forall s, In s (train_list ++ val_list ++ test_list) -> In s data_list).
Proof.
  intros K ltb get_avg_rmsds data_list train_idx val_idx test_idx config Hall.
  apply Forall_app in Hall as [Htr Hall]. apply Forall_app in Hall as [Hva Hte].
  destruct (SplitFacts.index_list_in_range data_list train_idx Htr)
    as [tr [Etr Ftr]].
  destruct (SplitFacts.index_list_in_range data_list val_idx Hva)
    as [va [Eva Fva]].
  destruct (SplitFacts.index_list_in_range data_list test_idx Hte)
    as [te [Ete Fte]].
  exists tr, va, te.
  split; [now apply IndexFacts.split_seq_identity |].
  repeat split; try (symmetry; eapply Forall2_length; eassumption).
  intros s Hs.
  assert (Hpicked : forall idx picked,
             Forall2 (fun i s => Py.getitem data_list i = ret s) idx picked ->
             In s picked -> In s data_list).
  { intros idx picked F. induction F as [| i x idx picked Hix _ IH];
      simpl; [contradiction |].
    intros [<- | H]; [now apply IndexFacts.getitem_in in Hix | now apply IH]. }
  apply in_app_or in Hs as [Hs | Hs]; [now apply (Hpicked _ _ Ftr) |].
  apply in_app_or in Hs as [Hs | Hs];
    [now apply (Hpicked _ _ Fva) | now apply (Hpicked _ _ Fte)].
Qed.

Lemma seq_identity_sizes_witness :
  exists train_list val_list test_list,
    get_data_splits Z.ltb Demo.avg_rmsds Demo.corpus
      ([2; -3], [1], []) (mk_config 1) "seq_identity"
    = ret (train_list, val_list, test_list)
    /\ length train_list = length [2; -3]
    /\ length val_list = length [1]
    /\ length test_list = length (@nil Z)
    /\ (forall s, In s (train_list ++ val_list ++ test_list) -> In s Demo.corpus).
Proof.
  apply (seq_identity_sizes Z Z.ltb Demo.avg_rmsds Demo.corpus
           [2; -3] [1] [] (mk_config 1)).
  repeat constructor; simpl; lia.
Defined.

(** X8: an index [i] with [0 <= i < len(samples)] and the index
    [i - len(samples)] name the same sample, so an artifact whose indices
    all differ can still list a sample twice. *)
Theorem index_alias :
  forall (samples : list sample) (i : Z),
    0 <= i < Z.of_nat (length samples) ->
    exists s,
      nth_error samples (Z.to_nat i) = Some s
      /\ index_list_by_indices samples [i; i - Z.of_nat (length samples)]
         = ret [s; s].
Proof.
  intros samples i Hi.
  destruct (nth_error samples (Z.to_nat i)) as [s |] eqn:E.
  - exists s. split; [reflexivity |].
    unfold index_list_by_indices. simpl.
    rewrite (PyFacts.getitem_nonneg samples i s Hi).
    rewrite (PyFacts.getitem_negative samples (i - Z.of_nat (length samples)) s)
      by lia.
    replace (Z.of_nat (length samples) + (i - Z.of_nat (length samples)))
      with i by lia.
    now rewrite (nth_error_nth _ _ s E).
  - apply nth_error_None in E. lia.
Qed.

Lemma index_alias_witness :
  exists s,
    nth_error Demo.corpus (Z.to_nat 1) = Some s
    /\ index_list_by_indices Demo.corpus [1; 1 - Z.of_nat (length Demo.corpus)]
       = ret [s; s].
Proof.
  apply (index_alias Demo.corpus 1). simpl; lia.
Defined.

(** X9: [index_list_by_indices] over two index lists in a row is the
    lookup of the first followed by the lookup of the second, the
    results appended; an IndexError in the first part comes first. *)
Theorem index_list_by_indices_app :
  forall (lst : list sample) (a b : list Z),
    index_list_by_indices lst (a ++ b)
    = (x <- index_list_by_indices lst a ;;
       y <- index_list_by_indices lst b ;;
       ret (x ++ y)).
Proof.
  intros lst a b. unfold index_list_by_indices.
  induction a as [| i a IH]; simpl.
  - destruct (Py.comprehension _ b); reflexivity.
  - destruct (Py.getitem lst i); simpl; [reflexivity |].
    rewrite IH.
    destruct (Py.comprehension _ a); simpl; [reflexivity |].
    destruct (Py.comprehension _ b); reflexivity.
Qed.

(** X10: on an empty corpus the [seq_identity] split fails with an
    IndexError as soon as the artifact lists any index, and returns
    three empty splits when it lists none. *)
Theorem seq_identity_empty_corpus :
  forall (K : Type) (ltb : K -> K -> bool)
         (get_avg_rmsds : list sample -> list K)
         (train_idx val_idx test_idx : list Z) (config : Config),
    (train_idx ++ val_idx ++ test_idx <> [] ->
     raises (get_data_splits ltb get_avg_rmsds []
               (train_idx, val_idx, test_idx) config "seq_identity")
            "IndexError")
    /\ get_data_splits ltb get_avg_rmsds [] ([], [], []) config "seq_identity"
       = ret ([], [], []).
Proof.
  intros K ltb get_avg_rmsds train_idx val_idx test_idx config.
  split; [| reflexivity].
  intros Hne. unfold raises, get_data_splits. simpl String.eqb. cbv iota.
  assert (Hfail : forall i idx,
             index_list_by_indices [] (i :: idx) = raise "IndexError").
  { intros i idx. apply SplitFacts.index_list_out_of_range.
    apply Exists_cons_hd. simpl. lia. }
  destruct train_idx as [| i train_idx]; [| now rewrite Hfail].
  destruct val_idx as [| j val_idx]; [| now rewrite Hfail].
  destruct test_idx as [| k test_idx]; [now contradiction Hne |].
  now rewrite Hfail.
Qed.

Lemma seq_identity_empty_corpus_witness :
  raises (get_data_splits Z.ltb Demo.avg_rmsds [] ([], [0], []) (mk_config 1)
            "seq_identity")
         "IndexError".
Proof.
  apply (proj1 (seq_identity_empty_corpus Z Z.ltb Demo.avg_rmsds [] [0] []
                  (mk_config 1))).
  discriminate.
Defined.

(** X11: when the three index lists of the artifact together list every
    index [0 .. len(samples) - 1] exactly once, the [seq_identity] split
    is returned and is a partition of the corpus. *)
Theorem valid_artifact_partitions :
  forall (K : Type) (ltb : K -> K -> bool)
         (get_avg_rmsds : list sample -> list K)
         (data_list : list sample) (train_idx val_idx test_idx : list Z)
         (config : Config),
    Permutation (train_idx ++ val_idx ++ test_idx)
                (map Z.of_nat (seq 0 (length data_list))) ->
    exists train_list val_list test_list,
      get_data_splits ltb get_avg_rmsds data_list
        (train_idx, val_idx, test_idx) config "seq_identity"
      = ret (train_list, val_list, test_list)
      /\ Permutation (train_list ++ val_list ++ test_list) data_list.
Proof.
  intros K ltb get_avg_rmsds data_list train_idx val_idx test_idx config Hp.
  assert (Hall : Forall (in_range data_list) (train_idx ++ val_idx ++ test_idx)).
  { apply (Permutation_Forall (Permutation_sym Hp)).
    apply Forall_forall. intros i Hi.
    apply in_map_iff in Hi as [j [<- Hj]]. apply in_seq in Hj.
    unfold in_range. lia. }
  apply Forall_app in Hall as [Htr Hall]. apply Forall_app in Hall as [Hva Hte].
  destruct (SplitFacts.index_list_in_range data_list train_idx Htr)
    as [tr [Etr Ftr]].
  destruct (SplitFacts.index_list_in_range data_list val_idx Hva)
    as [va [Eva Fva]].
  destruct (SplitFacts.index_list_in_range data_list test_idx Hte)
    as [te [Ete Fte]].
  exists tr, va, te.
  split; [now apply IndexFacts.split_seq_identity |].
  assert (Fall : Forall2 (fun i s => Py.getitem data_list i = ret s)
                   (train_idx ++ val_idx ++ test_idx) (tr ++ va ++ te))
    by (repeat apply Forall2_app; assumption).
  destruct (Permutation_Forall2 Hp Fall) as [picked [Hperm Fpicked]].
  pose proof (IndexFacts.getitem_seq [] data_list) as Fseq.
  simpl in Fseq.
  rewrite (IndexFacts.getitem_functional data_list _ _ _ Fpicked Fseq) in Hperm.
  exact Hperm.
Qed.

Lemma valid_artifact_partitions_witness :
  exists train_list val_list test_list,
    get_data_splits Z.ltb Demo.avg_rmsds Demo.corpus ([2], [0], [1])
      (mk_config 1) "seq_identity"
    = ret (train_list, val_list, test_list)
    /\ Permutation (train_list ++ val_list ++ test_list) Demo.corpus.
Proof.
  apply (valid_artifact_partitions Z Z.ltb Demo.avg_rmsds Demo.corpus
           [2] [0] [1] (mk_config 1)).
  simpl.
  apply (Permutation_cons_app [0; 1] [] 2).
  rewrite app_nil_r. apply Permutation_refl.
Defined.
